(** * Rebecca-node: the REST control service (rest_service.py)

    A shallow embedding of [Service] and of the helpers it calls, with the
    properties of the node's control protocol stated over it.

    Conventions.
    - Python objects become records; [self] is threaded explicitly.
    - A handler is a function [World -> Result A * World]: an exception
      keeps every mutation made before it was raised, as in Python.
    - Wall-clock time ([time.time()]) is an integer number of milliseconds.
    - Whatever lives outside the process (the engine child process, the
      network, the file system, other requests) is read from an [Env]
      record of oracles, so every run of a handler is a pure function. *)

From Stdlib Require Import ZArith List String Ascii Bool Lia QArith.
Import ListNotations.

Local Open Scope string_scope.
Local Open Scope list_scope.
Local Open Scope Z_scope.

(** String concatenation ([+] on str, and f-strings). *)
Infix "+++" := String.append (right associativity, at level 60).

Set Implicit Arguments.

(* ------------------------------------------------------------------ *)
(** ** Python strings *)

Module Py.

(** [bool(s)] for a str. *)
Definition truthy (s : string) : bool :=
  match s with EmptyString => false | String _ _ => true end.

(** [s.startswith(p)]. *)
Definition startswith (s p : string) : bool := String.prefix p s.

(** [needle in hay] on str. *)
Fixpoint contains (needle hay : string) : bool :=
  String.prefix needle hay ||
  match hay with
  | EmptyString => false
  | String _ rest => contains needle rest
  end.

(** ASCII part of [str.lower()]. *)
Definition lower_char (c : ascii) : ascii :=
  let n := nat_of_ascii c in
  if (65 <=? n)%nat && (n <=? 90)%nat then ascii_of_nat (n + 32) else c.

Fixpoint lower (s : string) : string :=
  match s with
  | EmptyString => EmptyString
  | String c rest => String (lower_char c) (lower rest)
  end.

(** ASCII part of [str.isspace()]: TAB..CR, FS..US and the blank. *)
Definition is_space (c : ascii) : bool :=
  let n := nat_of_ascii c in
  ((9 <=? n)%nat && (n <=? 13)%nat) || ((28 <=? n)%nat && (n <=? 32)%nat).

Fixpoint lstrip (s : string) : string :=
  match s with
  | EmptyString => EmptyString
  | String c rest => if is_space c then lstrip rest else s
  end.

Fixpoint rstrip (s : string) : string :=
  match s with
  | EmptyString => EmptyString
  | String c rest =>
      match rstrip rest with
      | EmptyString => if is_space c then EmptyString else String c EmptyString
      | r => String c r
      end
  end.

(** [s.strip()]. *)
Definition strip (s : string) : string := rstrip (lstrip s).

Fixpoint lstrip_by (drop : ascii -> bool) (s : string) : string :=
  match s with
  | EmptyString => EmptyString
  | String c rest => if drop c then lstrip_by drop rest else s
  end.

Fixpoint rstrip_by (drop : ascii -> bool) (s : string) : string :=
  match s with
  | EmptyString => EmptyString
  | String c rest =>
      match rstrip_by drop rest with
      | EmptyString => if drop c then EmptyString else String c EmptyString
      | r => String c r
      end
  end.

(** [s.replace(sub, '')] for a non-empty [sub]; [skip] characters of a
    match found earlier are still to be dropped. *)
Fixpoint remove_sub (sub : string) (skip : nat) (s : string) : string :=
  match s with
  | EmptyString => EmptyString
  | String c rest =>
      match skip with
      | S k => remove_sub sub k rest
      | O =>
          if String.prefix sub s
          then remove_sub sub (String.length sub - 1) rest
          else String c (remove_sub sub 0 rest)
      end
  end.

Definition digit_of (c : ascii) : option Z :=
  let n := nat_of_ascii c in
  if (48 <=? n)%nat && (n <=? 57)%nat then Some (Z.of_nat (n - 48)) else None.

Definition hex_of (c : ascii) : option Z :=
  let n := nat_of_ascii c in
  if (48 <=? n)%nat && (n <=? 57)%nat then Some (Z.of_nat (n - 48))
  else if (97 <=? n)%nat && (n <=? 102)%nat then Some (Z.of_nat (n - 87))
  else if (65 <=? n)%nat && (n <=? 70)%nat then Some (Z.of_nat (n - 55))
  else None.

(** Reads the decimal digits at the head of [s]: the number read so far,
    how many digits were read, and what follows them. *)
Fixpoint read_digits (s : string) (acc : Z) (count : nat) : Z * nat * string :=
  match s with
  | EmptyString => (acc, count, EmptyString)
  | String c rest =>
      match digit_of c with
      | Some d => read_digits rest (10 * acc + d) (S count)
      | None => (acc, count, s)
      end
  end.

Definition unsigned_decimal (s : string) : option Q :=
  let '(whole, n1, rest) := read_digits s 0 0 in
  match rest with
  | EmptyString => if (0 <? n1)%nat then Some (inject_Z whole) else None
  | String "."%char frac =>
      let '(all, n2, rest') := read_digits frac whole 0 in
      match rest' with
      | EmptyString =>
          if (0 <? n1 + n2)%nat
          then Some (Qmake all (Z.to_pos (10 ^ Z.of_nat n2)))
          else None
      | String _ _ => None
      end
  | String _ _ => None
  end.

(** [float(s)] on plain decimal literals: blanks around, an optional
    sign, digits with an optional fractional part.  [None] is the
    [ValueError].  Exponents, underscores, [inf] and [nan], which Python
    reads too, are outside this fragment. *)
Definition float (s : string) : option Q :=
  match strip s with
  | String "-"%char rest => option_map Qopp (unsigned_decimal rest)
  | String "+"%char rest => unsigned_decimal rest
  | body => unsigned_decimal body
  end.

Fixpoint hex_value (s : string) (acc : Z) : option Z :=
  match s with
  | EmptyString => Some acc
  | String c rest =>
      match hex_of c with
      | Some d => hex_value rest (16 * acc + d)
      | None => None
      end
  end.

Definition is_brace (c : ascii) : bool :=
  Ascii.eqb c "{"%char || Ascii.eqb c "}"%char.

(** The integer of [uuid.UUID(s)] for a str [s]; [None] is the
    [ValueError].  Only plain hexadecimal digits are read. *)
Definition uuid (s : string) : option Z :=
  let h := remove_sub "uuid:" 0 (remove_sub "urn:" 0 s) in
  let h := rstrip_by is_brace (lstrip_by is_brace h) in
  let h := remove_sub "-" 0 h in
  if (String.length h =? 32)%nat then hex_value h 0 else None.

(** [pathlib.Path(base) / name], printed; no normalisation. *)
Definition path_join (base name : string) : string :=
  if String.prefix "/" name then name else base +++ "/" +++ name.

(** [x or ""] where [x] is a str or None. *)
Definition or_empty (x : option string) : string :=
  match x with Some s => s | None => "" end.

(** The one-character str of a line feed. *)
Definition newline : string := String (ascii_of_nat 10) EmptyString.

(** [x in (a, b, ...)] on str. *)
Definition in_tuple (x : string) (xs : list string) : bool :=
  existsb (String.eqb x) xs.

End Py.

(* ------------------------------------------------------------------ *)
(** ** Values, exceptions, results *)

(** [uuid.UUID]: compared through its 128-bit integer. *)
Definition UUID := Z.

(** The JSON-like Python values that handlers return or put in a
    [detail]. *)
#[local] Unset Elimination Schemes.
Inductive Value : Type :=
| VNone
| VBool (b : bool)
| VInt (z : Z)
| VStr (s : string)
| VUuid (u : UUID)
| VList (items : list Value)
| VDict (fields : list (string * Value)).
#[local] Set Elimination Schemes.

(** [d.get(key)]: the value, or None. *)
Fixpoint dict_get (key : string) (fields : list (string * Value)) : Value :=
  match fields with
  | [] => VNone
  | (k, v) :: rest => if String.eqb k key then v else dict_get key rest
  end.

(** [fastapi.HTTPException(status_code, detail)]. *)
Record HTTPException := { status_code : Z; detail : Value }.

Inductive Result (A : Type) : Type :=
| Ok (a : A)
| Raise (e : HTTPException).

Arguments Ok {A} a.
Arguments Raise {A} e.

Definition is_ok {A} (r : Result A) : bool :=
  match r with Ok _ => true | Raise _ => false end.

(** What a call into a collaborator does: it comes back, or it raises
    (the text is [str(exc)]). *)
Inductive Outcome : Type :=
| Returned
| Raised (msg : string).

(* ------------------------------------------------------------------ *)
(** ** The Engine Manager

    [xray.XRayCore] and [xray.XRayConfig] are imported by rest_service.py
    but defined elsewhere; the service is therefore parametric in them.
    The fields are exactly the attributes and methods the service uses. *)

Class EngineManager : Type := {
  Core : Type;
  XRayConfig : Type;
  (** [XRayConfig(config, peer_ip)]: a configuration, or the text of the
      [json.decoder.JSONDecodeError]. *)
  make_config : string -> option string -> XRayConfig + string;
  (** [core.started]. *)
  started : Core -> bool;
  (** [core.get_version()]. *)
  get_version : Core -> string;
  (** [core.stop()]; [Raised] is a [RuntimeError]. *)
  core_stop : Core -> Outcome * Core;
  (** [core.start(config)]; [Raised] is any [Exception]. *)
  core_start : XRayConfig -> Core -> Outcome * Core;
  (** [core.restart(config)]; [Raised] is any [Exception]. *)
  core_restart : XRayConfig -> Core -> Outcome * Core;
  (** The lines standing in the handle of [core.get_logs()] when its
      holder first looks at it. *)
  get_logs : Core -> list string;
  executable_path : Core -> string;
  assets_path : Core -> string;
  set_executable_path : string -> Core -> Core;
  set_assets_path : string -> Core -> Core
}.

(** Modelled from the spec: the contract of the Engine Manager's [stop]
    (class [XRayCore], not part of rest_service.py).  Section 4.2 calls the
    failures of [stop] "already stopped"-class failures and section 5
    speaks of "a clean terminal state" and of "a nothing to stop
    non-error": whether [stop] returns or fails, the engine is not running
    afterwards, and a [stop] that finds nothing to stop changes nothing. *)
Class EngineContract (EM : EngineManager) : Prop := {
  stop_stops : forall c : Core, started (snd (core_stop c)) = false;
  stop_idle : forall c : Core, started c = false -> snd (core_stop c) = c
}.

(* ------------------------------------------------------------------ *)
(** ** The outside world *)

(** What [requests.post] gives back. [json] is [res.json()], [None] when
    it raises [ValueError]. *)
Record Response := {
  res_status_code : Z;
  res_text : string;
  res_json : option Value
}.

Inductive PostResult : Type :=
| RequestException (msg : string)
| Replied (res : Response).

(** Observable actions on the outside world, in the order performed. *)
Inductive Effect : Type :=
| HttpGet (url : string) (timeout : Z)
| HttpPost (url : string) (timeout : Z)
| MakeDirs (path : string)
| WriteFile (path : string)
| ExtractZip (target_dir : string)
| Chmod (path : string)
| Unlink (path : string)
| Rename (src dst : string)
| CopyFile (src dst : string)
| ComposeRewrite (path key value : string).

Section Node.

Context {EM : EngineManager}.

(** What happens while the handler is blocked in one [time.sleep]: how
    much later than asked it wakes up, the lines the engine wrote
    meanwhile, and what became of the engine process. *)
Record Tick := {
  overshoot : N;
  lines : list string;
  evolve : Core -> Core
}.

Record Env := {
  (** the [time.sleep] calls of one handler run, in order *)
  ticks : nat -> Tick;
  (** lines the engine writes while [core.start] or [core.restart] is
      in progress *)
  boot_lines : list string;
  (** [requests.post(url, timeout=...)] *)
  http_post : string -> PostResult;
  (** [requests.get(url, timeout=120)] followed by [raise_for_status()]:
      the content, or the text of the exception *)
  http_get : string -> string + string;
  (** [open(dst, "wb")] and [write]: [Some] is the text of the exception *)
  write_error : string -> option string;
  (** [platform.system()] and [platform.machine()] *)
  platform_system : string;
  platform_machine : string;
  (** names present in the install directory once the archive with the
      given content is extracted *)
  archive_members : string -> list string;
  (** does [extracted_exe.rename(final_exe)] (or the unlink before it)
      raise? *)
  rename_fails : bool;
  (** [compose_file.exists()] *)
  compose_exists : bool;
  (** the text of the exception on which [_update_docker_compose] ends,
      and whether the descriptor had been written by then *)
  compose_exception : string;
  compose_written : bool
}.

(** ** The service object *)

Record Service := {
  connected : bool;
  client_ip : option string;
  session_id : option UUID;
  core : Core;
  core_version : string;
  node_version : string;
  node_service_base : option string
}.

Record World := {
  self : Service;
  now : Z;                 (* time.time(), in ms *)
  trace : list Effect      (* most recent last *)
}.

Definition M (A : Type) : Type := World -> Result A * World.

Definition ret {A} (a : A) : M A := fun w => (Ok a, w).

Definition raise {A} (status : Z) (d : Value) : M A :=
  fun w => (Raise {| status_code := status; detail := d |}, w).

Definition bind {A B} (m : M A) (k : A -> M B) : M B :=
  fun w =>
    match m w with
    | (Ok a, w') => k a w'
    | (Raise e, w') => (Raise e, w')
    end.

Notation "x <- m ;; k" := (bind m (fun x => k))
  (at level 61, m at next level, right associativity).
Notation "m ;;; k" := (bind m (fun _ => k))
  (at level 61, right associativity).

Definition get_self : M Service := fun w => (Ok (self w), w).

Definition modify_self (f : Service -> Service) : M unit :=
  fun w => (Ok tt, {| self := f (self w); now := now w; trace := trace w |}).

Definition perform (e : Effect) : M unit :=
  fun w => (Ok tt, {| self := self w; now := now w; trace := trace w ++ [e] |}).

Definition with_core (c : Core) (s : Service) : Service :=
  {| connected := connected s; client_ip := client_ip s;
     session_id := session_id s; core := c;
     core_version := core_version s; node_version := node_version s;
     node_service_base := node_service_base s |}.

Definition with_core_version (v : string) (s : Service) : Service :=
  {| connected := connected s; client_ip := client_ip s;
     session_id := session_id s; core := core s;
     core_version := v; node_version := node_version s;
     node_service_base := node_service_base s |}.

Definition with_session (conn : bool) (ip : option string)
    (sid : option UUID) (s : Service) : Service :=
  {| connected := conn; client_ip := ip; session_id := sid;
     core := core s; core_version := core_version s;
     node_version := node_version s;
     node_service_base := node_service_base s |}.

Definition set_core (c : Core) (w : World) : World :=
  {| self := with_core c (self w); now := now w; trace := trace w |}.

(** ** Session Manager *)

(** [Service.match_session_id]. A presented token is always a UUID: the
    request body is validated before the handler runs. *)
Definition match_session_id (sid : UUID) : M bool :=
  s <- get_self ;;
  match session_id s with
  | Some current =>
      if Z.eqb sid current then ret true
      else raise 403 (VStr "Session ID mismatch.")
  | None => raise 403 (VStr "Session ID mismatch.")
  end.

(** [Service.response], with its keyword arguments as a list. *)
Definition response (kwargs : list (string * Value)) (s : Service) : Value :=
  VDict ([("connected", VBool (connected s));
          ("started", VBool (started (core s)));
          ("core_version", VStr (core_version s));
          ("node_version", VStr (node_version s))] ++ kwargs).

(** [Service.base]. *)
Definition base : M Value := s <- get_self ;; ret (response [] s).

(** [try: self.core.stop() except RuntimeError: pass]. *)
Definition stop_quietly : M unit :=
  modify_self (fun s => with_core (snd (core_stop (core s))) s).

Definition uuid_value (x : option UUID) : Value :=
  match x with Some u => VUuid u | None => VNone end.

(** [Service.connect]; [fresh] is what [uuid4()] returns and [host] is
    [request.client.host]. *)
Definition connect (fresh : UUID) (host : string) : M Value :=
  modify_self (fun s => with_session (connected s) (Some host) (Some fresh) s) ;;;
  s <- get_self ;;
  (if connected s
   then (if started (core s) then stop_quietly else ret tt)
   else ret tt) ;;;
  modify_self (fun s => with_session true (client_ip s) (session_id s) s) ;;;
  s <- get_self ;;
  ret (response [("session_id", uuid_value (session_id s))] s).

(** [Service.disconnect]. *)
Definition disconnect : M Value :=
  modify_self (with_session false None None) ;;;
  s <- get_self ;;
  (if started (core s) then stop_quietly else ret tt) ;;;
  s <- get_self ;;
  ret (response [] s).

(** [Service.ping]. *)
Definition ping (sid : UUID) : M Value :=
  match_session_id sid ;;; ret (VDict []).

(** ** Core Lifecycle Controller *)

(** [time.sleep(ms / 1000)]: the clock moves on and the engine process
    lives its life. *)
Definition sleep (ms : Z) (t : Tick) (w : World) : World :=
  {| self := with_core (evolve t (core (self w))) (self w);
     now := now w + ms + Z.of_N (overshoot t);
     trace := trace w |}.

(** [f'Xray {self.core_version} started']. *)
Definition started_marker (s : Service) : string :=
  "Xray " +++ core_version s +++ " started".

(** The inner loop [while logs: ...] of the readiness wait; its [break]
    leaves this loop only. *)
Fixpoint drain (marker : string) (logs : list string) (last_log : string)
    : list string * string :=
  match logs with
  | [] => ([], last_log)
  | log :: rest =>
      let last_log' := if Py.truthy log then log else last_log in
      if Py.contains marker log then (rest, last_log')
      else drain marker rest last_log'
  end.

(** The outer loop [while time.time() < end_time: ...; time.sleep(0.1)],
    at most [fuel] rounds of it; the [i]-th sleep of the handler comes
    next. *)
Fixpoint poll (E : Env) (fuel i : nat) (end_time : Z)
    (logs : list string) (last_log : string) (w : World)
    : (list string * string) * World :=
  match fuel with
  | O => ((logs, last_log), w)
  | S fuel' =>
      if now w <? end_time then
        let '(logs1, last1) := drain (started_marker (self w)) logs last_log in
        let t := ticks E i in
        poll E fuel' (S i) end_time (logs1 ++ lines t) last1 (sleep 100 t w)
      else ((logs, last_log), w)
  end.

(** A sleep lasts 100 ms at least, so this many rounds reach any
    deadline (see [poll_world] and [poll_enough]). *)
Definition rounds_until (end_time : Z) (w : World) : nat :=
  Z.to_nat ((end_time - now w + 99) / 100).

(** Lines 185-195 of [start] and 246-256 of [restart]:
    [start_time = time.time(); end_time = start_time + 3; last_log = ''],
    then the loop. *)
Definition wait_ready (E : Env) (i : nat) (logs : list string) (w : World)
    : (list string * string) * World :=
  let start_time := now w in
  let end_time := start_time + 3000 in
  poll E (rounds_until end_time w) i end_time logs "" w.

Definition decode_error (exc : string) : Value :=
  VDict [("config", VStr ("Failed to decode config: " +++ exc))].

(** The tail common to [start] and [restart]:
    [if not self.core.started: raise HTTPException(503, last_log)]. *)
Definition report_started (last_log : string) : M Value :=
  s <- get_self ;;
  if negb (started (core s)) then raise 503 (VStr last_log)
  else ret (response [] s).

(** [Service.start]. *)
Definition start (E : Env) (sid : UUID) (config : string) : M Value :=
  match_session_id sid ;;;
  s <- get_self ;;
  match make_config config (client_ip s) with
  | inr exc => raise 422 (decode_error exc)
  | inl cfg =>
      (fun w =>
         let logs := get_logs (core (self w)) in
         match core_start cfg (core (self w)) with
         | (Raised exc, c1) =>
             (Raise {| status_code := 503; detail := VStr exc |}, set_core c1 w)
         | (Returned, c1) =>
             let '((_, last_log), w2) :=
               wait_ready E 0 (logs ++ boot_lines E) (set_core c1 w) in
             report_started last_log w2
         end)
  end.

(** [Service.stop]. *)
Definition stop (sid : UUID) : M Value :=
  match_session_id sid ;;;
  stop_quietly ;;;
  s <- get_self ;;
  ret (response [] s).

(** [Service.restart]. *)
Definition restart (E : Env) (sid : UUID) (config : string) : M Value :=
  match_session_id sid ;;;
  s <- get_self ;;
  match make_config config (client_ip s) with
  | inr exc => raise 422 (decode_error exc)
  | inl cfg =>
      (fun w =>
         let logs := get_logs (core (self w)) in
         (* if self.core.started: try: stop(); sleep(0.5)
            except RuntimeError: pass *)
         let '(i, logs1, w1) :=
           if started (core (self w)) then
             match core_stop (core (self w)) with
             | (Returned, c1) =>
                 (1%nat, logs ++ lines (ticks E 0),
                  sleep 500 (ticks E 0) (set_core c1 w))
             | (Raised _, c1) => (0%nat, logs, set_core c1 w)
             end
           else (0%nat, logs, w) in
         match core_restart cfg (core (self w1)) with
         | (Raised exc, c2) =>
             (Raise {| status_code := 503; detail := VStr exc |}, set_core c2 w1)
         | (Returned, c2) =>
             let '((_, last_log), w2) :=
               wait_ready E i (logs1 ++ boot_lines E) (set_core c2 w1) in
             report_started last_log w2
         end)
  end.

(** ** Log Streaming Service *)

Inductive Handshake : Type :=
| Close (code : Z) (reason : string)
| Accept (sid : UUID) (interval : option Q).

(** [session_id != self.session_id]. *)
Definition session_differs (sid : UUID) (s : Service) : bool :=
  match session_id s with
  | Some current => negb (Z.eqb sid current)
  | None => true
  end.

(** [Service.logs] up to [websocket.accept()].  [session_param] and
    [interval_param] are the query parameters; an interval that is
    absent or empty stays as it is (no batching). *)
Definition logs_handshake (s : Service) (session_param : string)
    (interval_param : option string) : Handshake :=
  match Py.uuid session_param with
  | None => Close 4400 "session_id should be a valid UUID."
  | Some sid =>
      if session_differs sid s then Close 4403 "Session ID mismatch."
      else
        if Py.truthy (Py.or_empty interval_param) then
          match Py.float (Py.or_empty interval_param) with
          | None => Close 4400 "Invalid interval value"
          | Some q =>
              if negb (Qle_bool q 10)
              then Close 4400 "Interval must be more than 0 and at most 10 seconds"
              else Accept sid (Some q)
          end
        else Accept sid None
  end.

(** The local variables of the streaming loop, the clock and what has
    gone out over the socket so far (with the time of each send). *)
Record Stream := {
  cache : string;
  last_sent_ts : Z;
  pending : list string;
  clock : Z;
  sent : list (Z * string)
}.

Inductive Inbound : Type := TimedOut | Received | Disconnected.

(** What the rest of the world does around one round of the loop. *)
Record Turn := {
  (** lines appended to the handle since the loop last looked at it *)
  arrivals : list string;
  (** has another connect (or a disconnect) replaced the session? *)
  superseded : bool;
  (** does [send_text] raise, and how long does it take? *)
  send_fails : bool;
  send_takes : N;
  (** how [wait_for(websocket.receive(), timeout=0.2)] ends, and the
      time it takes beyond the timeout (when it times out) or in all *)
  inbound : Inbound;
  wait_takes : N
}.

Inductive Step : Type :=
| Continue (st : Stream)
| Exit (st : Stream).

(** [bool(interval)] once the handshake is over. *)
Definition batching (interval : option Q) : bool :=
  match interval with
  | Some q => negb (Qeq_bool q 0)
  | None => false
  end.

(** [time.time() - last_sent_ts >= interval], the interval in seconds. *)
Definition interval_elapsed (interval : option Q) (st : Stream) : bool :=
  match interval with
  | Some q => Qle_bool (q * 1000) (inject_Z (clock st - last_sent_ts st))
  | None => false
  end.

Definition flush_due (interval : option Q) (st : Stream) : bool :=
  batching interval && interval_elapsed interval st && Py.truthy (cache st).

Definition wait_time (t : Turn) : Z :=
  match inbound t with
  | TimedOut => 200 + Z.of_N (wait_takes t)
  | _ => Z.of_N (wait_takes t)
  end.

(** One round of [while session_id == self.session_id: ...]. *)
Definition stream_step (interval : option Q) (t : Turn) (st0 : Stream) : Step :=
  let st :=
    {| cache := cache st0; last_sent_ts := last_sent_ts st0;
       pending := pending st0 ++ arrivals t;
       clock := clock st0; sent := sent st0 |} in
  if superseded t then Exit st
  else if flush_due interval st && send_fails t then Exit st
  else
    let st1 :=
      if flush_due interval st then
        {| cache := "";
           last_sent_ts := clock st + Z.of_N (send_takes t);
           pending := pending st;
           clock := clock st + Z.of_N (send_takes t);
           sent := sent st ++ [(clock st, cache st)] |}
      else st in
    match pending st1 with
    | [] =>
        let st2 :=
          {| cache := cache st1; last_sent_ts := last_sent_ts st1;
             pending := [];
             clock := clock st1 + wait_time t; sent := sent st1 |} in
        match inbound t with
        | Disconnected => Exit st2
        | _ => Continue st2
        end
    | log :: rest =>
        if batching interval then
          Continue {| cache := cache st1 +++ log +++ Py.newline;
                      last_sent_ts := last_sent_ts st1;
                      pending := rest;
                      clock := clock st1; sent := sent st1 |}
        else if send_fails t then
          Exit {| cache := cache st1; last_sent_ts := last_sent_ts st1;
                  pending := rest;
                  clock := clock st1; sent := sent st1 |}
        else
          Continue {| cache := cache st1; last_sent_ts := last_sent_ts st1;
                      pending := rest;
                      clock := clock st1 + Z.of_N (send_takes t);
                      sent := sent st1 ++ [(clock st1, log)] |}
    end.

(** The first [n] rounds of the loop, from round [i] of the script. *)
Fixpoint stream_run (interval : option Q) (turns : nat -> Turn)
    (n i : nat) (st : Stream) : Step :=
  match n with
  | O => Continue st
  | S n' =>
      match stream_step interval (turns i) st with
      | Continue st' => stream_run interval turns n' (S i) st'
      | Exit st' => Exit st'
      end
  end.

(** [cache = ''; last_sent_ts = 0] and the handle just obtained. *)
Definition stream_open (w : World) : Stream :=
  {| cache := ""; last_sent_ts := 0;
     pending := get_logs (core (self w));
     clock := now w; sent := [] |}.

Definition stream_of (st : Step) : Stream :=
  match st with Continue s => s | Exit s => s end.

(** [Service.logs]: the handshake and, once the socket is accepted, the
    first [n] rounds of the loop.  The loop test
    [session_id == self.session_id] is read from the script ([superseded]),
    the session being replaced by other requests while this one waits. *)
Definition logs (w : World) (session_param : string)
    (interval_param : option string) (turns : nat -> Turn) (n : nat)
    : Handshake * option Step :=
  match logs_handshake (self w) session_param interval_param with
  | Accept sid interval =>
      (Accept sid interval,
       Some (stream_run interval turns n 0 (stream_open w)))
  | Close code reason => (Close code reason, None)
  end.

(** ** Maintenance Proxy *)

(** [Service._call_node_service]. *)
Definition _call_node_service (E : Env) (path : string) (timeout : Z) : M Value :=
  s <- get_self ;;
  if negb (Py.truthy (Py.or_empty (node_service_base s))) then
    raise 503 (VStr "Node maintenance service is not configured on this node.")
  else
    let url := Py.or_empty (node_service_base s) +++ path in
    perform (HttpPost url timeout) ;;;
    match http_post E url with
    | RequestException exc =>
        raise 502 (VStr ("Unable to reach node maintenance service: " +++ exc))
    | Replied res =>
        let data :=
          match res_json res with
          | Some d => d
          | None =>
              VDict [("detail",
                      VStr (if Py.truthy (res_text res) then res_text res
                            else "Node maintenance service returned invalid response."))]
          end in
        if 400 <=? res_status_code res then
          raise (res_status_code res)
                (match data with
                 | VDict fields => dict_get "detail" fields
                 | other => other
                 end)
        else ret data
    end.

(** [Service.restart_node_service]. *)
Definition restart_node_service (E : Env) (sid : UUID) : M Value :=
  match_session_id sid ;;; _call_node_service E "/restart" 300.

(** [Service.update_node_service]. *)
Definition update_node_service (E : Env) (sid : UUID) : M Value :=
  match_session_id sid ;;; _call_node_service E "/update" 900.

(** ** Update Pipeline *)

(** [Service._detect_asset_name]. *)
Definition _detect_asset_name (E : Env) : M string :=
  let sys := Py.lower (platform_system E) in
  let arch := Py.lower (platform_machine E) in
  if Py.startswith sys "linux" then
    if Py.in_tuple arch ["x86_64"; "amd64"] then ret "Xray-linux-64.zip"
    else if Py.in_tuple arch ["aarch64"; "arm64"] then ret "Xray-linux-arm64-v8a.zip"
    else if Py.in_tuple arch ["armv7l"; "armv7"] then ret "Xray-linux-arm32-v7a.zip"
    else if Py.in_tuple arch ["armv6l"] then ret "Xray-linux-arm32-v6.zip"
    else if Py.in_tuple arch ["riscv64"] then ret "Xray-linux-riscv64.zip"
    else raise 400 (VStr "Unsupported platform for node")
  else raise 400 (VStr "Unsupported platform for node").

(** [Service._install_zip_to]; [os.path.exists] is asked of the names
    the install directory holds after the extraction. *)
Definition _install_zip_to (E : Env) (zip_bytes target_dir : string) : M string :=
  perform (MakeDirs target_dir) ;;;
  perform (ExtractZip target_dir) ;;;
  let present (path : string) : bool :=
    Py.in_tuple path
      (map (fun n => target_dir +++ "/" +++ n) (archive_members E zip_bytes)) in
  let exe := target_dir +++ "/xray" in
  let exe :=
    if Py.startswith (Py.lower (platform_system E)) "windows"
    then target_dir +++ "/xray.exe" else exe in
  let exe :=
    if negb (present exe) then
      let alt := target_dir +++ "/Xray" in
      let alt_win := target_dir +++ "/Xray.exe" in
      if present alt then alt else (if present alt_win then alt_win else exe)
    else exe in
  if negb (present exe) then raise 500 (VStr "xray binary not found in archive")
  else perform (Chmod exe) ;;; ret exe.

Record FileItem := { item_name : option string; item_url : option string }.

(** [Service._download_files_to]; [saved] is the list built so far. *)
Fixpoint _download_files_to (E : Env) (path : string) (files : list FileItem)
    (saved : list Value) : M (list Value) :=
  match files with
  | [] => ret saved
  | item :: rest =>
      let name := Py.strip (Py.or_empty (item_name item)) in
      let url := Py.strip (Py.or_empty (item_url item)) in
      if negb (Py.truthy name) || negb (Py.truthy url) then
        raise 422 (VStr "Each file must include non-empty 'name' and 'url'.")
      else
        perform (HttpGet url 120) ;;;
        match http_get E url with
        | inr e => raise 502 (VStr ("Failed to download " +++ name +++ ": " +++ e))
        | inl content =>
            let dst := Py.path_join path name in
            match write_error E dst with
            | Some e => raise 500 (VStr ("Failed to save " +++ name +++ ": " +++ e))
            | None =>
                perform (WriteFile dst) ;;;
                _download_files_to E path rest
                  (saved ++ [VDict [("name", VStr name); ("path", VStr dst)]])
            end
        end
  end.

(** [Service._update_docker_compose].  Every path through it ends in its
    [except Exception] clause: reading, parsing or writing the
    descriptor may fail, and where they do not, [subprocess.run] raises
    a [NameError], the module [subprocess] being imported nowhere in
    rest_service.py. *)
Definition _update_docker_compose (E : Env) (compose_file key value : string)
    : M unit :=
  (if compose_written E then perform (ComposeRewrite compose_file key value)
   else ret tt) ;;;
  raise 500 (VStr ("Failed to update docker-compose.yml: " +++ compose_exception E)).

(** [Service.update_core]. *)
Definition update_core (E : Env) (version : string) : M Value :=
  if negb (Py.truthy version) then raise 422 (VStr "version is required")
  else
    asset <- _detect_asset_name E ;;
    let url := "https://github.com/XTLS/Xray-core/releases/download/"
                 +++ version +++ "/" +++ asset in
    perform (HttpGet url 120) ;;;
    match http_get E url with
    | inr e => raise 502 (VStr ("Download failed: " +++ e))
    | inl zip_bytes =>
        let base_dir := "/var/lib/reb/xray-core" in
        perform (MakeDirs base_dir) ;;;
        s <- get_self ;;
        (if started (core s) then stop_quietly else ret tt) ;;;
        extracted_exe <- _install_zip_to E zip_bytes base_dir ;;
        let final_exe := base_dir +++ "/xray" in
        (if negb (String.eqb extracted_exe final_exe) then
           if rename_fails E then
             perform (CopyFile extracted_exe final_exe) ;;;
             (if Py.startswith (Py.lower (platform_system E)) "linux"
              then perform (Chmod final_exe) else ret tt)
           else
             (if Py.in_tuple final_exe
                   (map (fun n => base_dir +++ "/" +++ n)
                        (archive_members E zip_bytes))
              then perform (Unlink final_exe) else ret tt) ;;;
             perform (Rename extracted_exe final_exe)
         else ret tt) ;;;
        let exe_path := final_exe in
        modify_self (fun s => with_core (set_executable_path exe_path (core s)) s) ;;;
        modify_self (fun s => with_core_version (get_version (core s)) s) ;;;
        let compose_file := "/opt/reb/docker-compose.yml" in
        (if compose_exists E then
           _update_docker_compose E compose_file "XRAY_EXECUTABLE_PATH"
             "/var/lib/rebecca-node/xray-core/xray"
         else ret tt) ;;;
        s <- get_self ;;
        ret (VDict [("detail", VStr ("Node core ready at " +++ exe_path));
                    ("version", VStr (core_version s))])
    end.

(** [Service.update_geo]; the body is a list already, FastAPI sees to
    that. *)
Definition update_geo (E : Env) (files : list FileItem) : M Value :=
  match files with
  | [] => raise 422 (VStr "'files' must be a non-empty list of {name,url}.")
  | _ :: _ =>
      let assets_dir := "/var/lib/reb/assets" in
      perform (MakeDirs assets_dir) ;;;
      saved <- _download_files_to E assets_dir files [] ;;
      modify_self (fun s => with_core (set_assets_path "/usr/local/share/xray" (core s)) s) ;;;
      let compose_file := "/opt/reb/docker-compose.yml" in
      (if compose_exists E then
         _update_docker_compose E compose_file "XRAY_ASSETS_PATH"
           "/usr/local/share/xray"
       else ret tt) ;;;
      ret (VDict [("detail", VStr ("Geo assets saved to " +++ assets_dir));
                  ("saved", VList saved)])
  end.

End Node.

Arguments Env {EM}.
Arguments World {EM}.
Arguments Service {EM}.
Arguments Tick {EM}.
Arguments M {EM} A.

(* ------------------------------------------------------------------ *)
(** ** A reference Engine Manager *)

Module Reference.

(** Modelled from the spec: the Engine Manager, which rest_service.py
    imports ([xray.XRayCore]) and does not define.  The state is the
    [EngineHandle] of section 3 ([version], [running],
    [executable_path], [assets_path]) with the log buffer, and
    [launches] says whether the binary at [executable_path] comes up
    when asked to.  [stop] ends a running engine and fails with an
    "already stopped"-class error otherwise (section 4.2); [start] and
    [restart] leave the engine running when the binary launches. *)
Record Handle := {
  running : bool;
  version : string;
  exe : string;
  assets : string;
  buffer : list string;
  launches : bool
}.

Definition with_running (b : bool) (h : Handle) : Handle :=
  {| running := b; version := version h; exe := exe h; assets := assets h;
     buffer := buffer h; launches := launches h |}.

Definition handle_stop (h : Handle) : Outcome * Handle :=
  if running h then (Returned, with_running false h)
  else (Raised "Xray is not running", h).

Definition handle_start (config : string) (h : Handle) : Outcome * Handle :=
  if launches h then (Returned, with_running true h)
  else (Raised "xray: cannot execute binary file", h).

Definition handle_restart (config : string) (h : Handle) : Outcome * Handle :=
  handle_start config (snd (handle_stop h)).

(** A configuration document is taken to be well formed when it opens
    with a brace. *)
Definition read_config (text : string) (peer : option string) : string + string :=
  if String.prefix "{" text then inl text
  else inr "Expecting value: line 1 column 1 (char 0)".

#[export] Instance engine : EngineManager := {|
  Core := Handle;
  XRayConfig := string;
  make_config := read_config;
  started := running;
  get_version := version;
  core_stop := handle_stop;
  core_start := handle_start;
  core_restart := handle_restart;
  get_logs := buffer;
  executable_path := exe;
  assets_path := assets;
  set_executable_path := fun p h =>
    {| running := running h; version := version h; exe := p;
       assets := assets h; buffer := buffer h; launches := launches h |};
  set_assets_path := fun p h =>
    {| running := running h; version := version h; exe := exe h;
       assets := p; buffer := buffer h; launches := launches h |}
|}.

(** *** Scenarios *)

Definition idle : Handle :=
  {| running := false; version := "1.8.4"; exe := "/usr/local/bin/xray";
     assets := "/usr/local/share/xray"; buffer := []; launches := true |}.

Definition fresh_service : Service :=
  {| connected := false; client_ip := None; session_id := None;
     core := idle; core_version := "1.8.4"; node_version := "0.1.0";
     node_service_base := Some "http://127.0.0.1:3100" |}.

(** A clock reading of late 2023. *)
Definition boot_world : World :=
  {| self := fresh_service; now := 1700000000000; trace := [] |}.

(** Sleeps that end on time, with a silent engine that stays as it is. *)
Definition calm : Tick :=
  {| overshoot := 0%N; lines := []; evolve := fun h => h |}.


Definition quiet_env (t : nat -> Tick) : Env :=
  {| ticks := t;
     boot_lines := [];
     http_post := fun _ => RequestException "connection refused";
     http_get := fun _ => inl "content";
     write_error := fun _ => None;
     platform_system := "Linux";
     platform_machine := "x86_64";
     archive_members := fun _ => ["xray"; "geoip.dat"];
     rename_fails := false;
     compose_exists := false;
     compose_exception := "name 'subprocess' is not defined";
     compose_written := true |}.

Definition tokenA : UUID := 11.
Definition tokenB : UUID := 22.

End Reference.

(* ------------------------------------------------------------------ *)
(** ** Notions used to state the properties *)

Unset Implicit Arguments.

(** The 403 of [match_session_id]. *)
Definition SessionMismatch : HTTPException :=
  {| status_code := 403; detail := VStr "Session ID mismatch." |}.

(** The last of the lines of [l] that is not empty, [default] when there
    is none. *)
Definition last_nonempty (default : string) (l : list string) : string :=
  List.last (filter Py.truthy l) default.

Section Notions.

Context {EM : EngineManager}.
Variable E : Env.

(** When the handler wakes from its [j]-th sleep of 100 ms, counting
    from sleep [i] of the script, having begun to wait at [t0]. *)
Fixpoint wake (i : nat) (t0 : Z) (j : nat) : Z :=
  match j with
  | O => t0
  | S j' => wake i t0 j' + 100 + Z.of_N (overshoot (ticks E (i + j')))
  end.

(** The lines a handler that waits from [t0] until [end_time] gets to
    see: those it finds at first, and those written during a sleep from
    which it wakes before the deadline. *)
Definition seen_before (i : nat) (t0 end_time : Z) (found : list string)
    (sleeps : nat) : list string :=
  found ++
  flat_map (fun j => if wake i t0 (S j) <? end_time
                     then lines (ticks E (i + j)) else [])
           (seq 0 sleeps).

(** The engine after [j] sleeps of the handler. *)
Fixpoint engine_after (i j : nat) (c : Core) : Core :=
  match j with
  | O => c
  | S j' => evolve (ticks E (i + j')) (engine_after i j' c)
  end.

(** No line of the log source carries the marker. *)
Definition never_announces (marker : string) (found : list string) : Prop :=
  (forall l, In l found -> Py.contains marker l = false) /\
  (forall k l, In l (lines (ticks E k)) -> Py.contains marker l = false).

End Notions.




Section StreamNotions.

Context {EM : EngineManager}.

(** The lines that reach the handle in rounds [i], ..., [i + n - 1]. *)
Definition arrived (turns : nat -> Turn) (i n : nat) : list string :=
  flat_map (fun k => arrivals (turns k)) (seq i n).




End StreamNotions.

(** The entry of a files list as [_download_files_to] reads it. *)
Definition entry_name (f : FileItem) : string :=
  Py.strip (Py.or_empty (item_name f)).

Definition entry_url (f : FileItem) : string :=
  Py.strip (Py.or_empty (item_url f)).

(** The entry has a non-empty name and a non-empty url. *)
Definition well_formed (f : FileItem) : bool :=
  Py.truthy (entry_name f) && Py.truthy (entry_url f).

(** What fetching one entry into [dir] does to the outside world. *)
Definition fetch_effects (dir : string) (f : FileItem) : list Effect :=
  [HttpGet (entry_url f) 120; WriteFile (Py.path_join dir (entry_name f))].

Definition is_download (e : Effect) : bool :=
  match e with HttpGet _ _ => true | _ => false end.

(** How many downloads a trace holds. *)
Definition downloads (tr : list Effect) : nat :=
  List.length (filter is_download tr).

(** The distribution artifacts, by machine name, for Linux hosts. *)
Definition artifacts : list (string * string) :=
  [("x86_64", "Xray-linux-64.zip"); ("amd64", "Xray-linux-64.zip");
   ("aarch64", "Xray-linux-arm64-v8a.zip"); ("arm64", "Xray-linux-arm64-v8a.zip");
   ("armv7l", "Xray-linux-arm32-v7a.zip"); ("armv7", "Xray-linux-arm32-v7a.zip");
   ("armv6l", "Xray-linux-arm32-v6.zip");
   ("riscv64", "Xray-linux-riscv64.zip")].

Fixpoint lookup (key : string) (table : list (string * string)) : option string :=
  match table with
  | [] => None
  | (k, v) :: rest => if String.eqb key k then Some v else lookup key rest
  end.

(** The artifact for a host, if it has one. *)
Definition artifact_for (system machine : string) : option string :=
  if Py.startswith (Py.lower system) "linux"
  then lookup (Py.lower machine) artifacts
  else None.

Section UpdateNotions.

Context {EM : EngineManager}.

(** The world with more done to the outside of it. *)
Definition add_trace (es : list Effect) (w : World) : World :=
  {| self := self w; now := now w; trace := trace w ++ es |}.

(** The download and the save of the entry go through. *)
Definition fetched (E : Env) (dir : string) (f : FileItem) : Prop :=
  (exists content, http_get E (entry_url f) = inl content) /\
  write_error E (Py.path_join dir (entry_name f)) = None.


End UpdateNotions.

(* ------------------------------------------------------------------ *)
(** ** Concrete runs on the reference Engine Manager *)

Module Scenario.

Import Reference.

(** The node once [tokenA] has connected from 10.0.0.1. *)
Definition owned : World := snd (connect tokenA "10.0.0.1" boot_world).

(** The same with the engine up. *)
Definition owned_running : World :=
  set_core (with_running true idle) owned.


(** After [tokenA], [tokenB] connects from 10.0.0.2. *)
Definition taken_over : World := snd (connect tokenB "10.0.0.2" owned).

(** An engine that comes up and stays up without a word. *)
Definition steady : Env := quiet_env (fun _ => calm).

(** An engine that announces itself during the first sleep and goes on
    running. *)
Definition announcing : Env :=
  quiet_env (fun k =>
    match k with
    | O => {| overshoot := 0%N;
              lines := ["2023/11/14 22:13:20 [Warning] core: Xray 1.8.4 started";
                        "2023/11/14 22:13:21 [Info] transport: listening"];
              evolve := fun h => h |}
    | S _ => calm
    end).


(** The node with three lines waiting in the handle. *)
Definition owned_backlog : World :=
  set_core {| running := true; version := "1.8.4";
              exe := "/usr/local/bin/xray";
              assets := "/usr/local/share/xray";
              buffer := ["line one"; "line two"; "line three"];
              launches := true |} owned.




(** A host for which no artifact is known. *)
Definition on_darwin : Env :=
  {| ticks := fun _ => calm;
     boot_lines := [];
     http_post := fun _ => RequestException "connection refused";
     http_get := fun _ => inl "content";
     write_error := fun _ => None;
     platform_system := "Darwin";
     platform_machine := "arm64";
     archive_members := fun _ => ["xray"];
     rename_fails := false;
     compose_exists := false;
     compose_exception := "name 'subprocess' is not defined";
     compose_written := true |}.

(** Rounds with nobody else about and nothing new in the handle. *)
Definition backlog : nat -> Turn :=
  fun _ =>
    {| arrivals := []; superseded := false;
       send_fails := false; send_takes := 0%N;
       inbound := TimedOut; wait_takes := 0%N |}.


End Scenario.

(* ------------------------------------------------------------------ *)
(** ** Notions for the further properties *)

(** What [_download_files_to] reports for an entry it has saved. *)
Definition saved_entry (dir : string) (f : FileItem) : Value :=
  VDict [("name", VStr (entry_name f));
         ("path", VStr (Py.path_join dir (entry_name f)))].



(** The release archive [update_core] asks for. *)
Definition release_url (version asset : string) : string :=
  "https://github.com/XTLS/Xray-core/releases/download/"
    +++ version +++ "/" +++ asset.

(* ------------------------------------------------------------------ *)
(** ** More of Python *)

From Stdlib Require Import DecimalString.

Module PyExtra.

(** [str(n)] and [f"{n}"] for an int. *)
Definition str_of_int (n : Z) : string :=
  NilZero.string_of_int (Z.to_int n).

(** [s.split(sep)] for a separator of one character. *)
Fixpoint split (sep : ascii) (s : string) : list string :=
  match s with
  | EmptyString => [EmptyString]
  | String c rest =>
      if Ascii.eqb c sep then EmptyString :: split sep rest
      else match split sep rest with
           | [] => [String c EmptyString]
           | piece :: more => String c piece :: more
           end
  end.

(** How many times [sep] occurs in [s]. *)
Fixpoint count (sep : ascii) (s : string) : nat :=
  match s with
  | EmptyString => O
  | String c rest => (if Ascii.eqb c sep then 1 else 0) + count sep rest
  end.

(** [int(s)] on plain decimal literals: blanks around, an optional sign
    and digits.  [None] is the [ValueError].  Underscores between digits,
    which Python reads too, are outside this fragment. *)
Definition int (s : string) : option Z :=
  let digits (body : string) : option Z :=
    match Py.read_digits body 0 0 with
    | (n, S _, EmptyString) => Some n
    | _ => None
    end in
  match Py.strip s with
  | String "-"%char rest => option_map Z.opp (digits rest)
  | String "+"%char rest => digits rest
  | body => digits body
  end.

(** [l[-1]], [None] standing for the [IndexError]. *)
Fixpoint last_item {A} (l : list A) : option A :=
  match l with
  | [] => None
  | [x] => Some x
  | _ :: rest => last_item rest
  end.

End PyExtra.

(* ------------------------------------------------------------------ *)
(** ** rest_service.py: construction and the validation handler *)

(** An element of the location of a validation error: a field name or an
    index. *)
Inductive LocPart : Type :=
| LocName (name : string)
| LocIndex (index : Z).

Definition loc_eqb (a b : LocPart) : bool :=
  match a, b with
  | LocName x, LocName y => String.eqb x y
  | LocIndex i, LocIndex j => Z.eqb i j
  | _, _ => false
  end.

(** One entry of [exc.errors()]: [error["loc"]] and [error.get("msg")]. *)
Record ErrorEntry := { loc : list LocPart; msg : option string }.

(** A Python dict from location parts to messages, in insertion order. *)
Definition Details := list (LocPart * option string).

(** [details[key] = value]. *)
Fixpoint assign (key : LocPart) (value : option string) (details : Details) : Details :=
  match details with
  | [] => [(key, value)]
  | (k, v) :: rest =>
      if loc_eqb k key then (k, value) :: rest
      else (k, v) :: assign key value rest
  end.

(** [details.get(key)]; the outer [None] says the key is absent. *)
Fixpoint reported (key : LocPart) (details : Details) : option (option string) :=
  match details with
  | [] => None
  | (k, v) :: rest => if loc_eqb k key then Some v else reported key rest
  end.

(** The loop of [validation_exception_handler]; [None] is the [IndexError]
    of an empty location. *)
Fixpoint collect_details (errors : list ErrorEntry) (details : Details)
    : option Details :=
  match errors with
  | [] => Some details
  | error :: rest =>
      match PyExtra.last_item (loc error) with
      | None => None
      | Some key => collect_details rest (assign key (msg error) details)
      end
  end.

(** [JSONResponse(status_code=..., content={"detail": details})]. *)
Record DetailResponse := { response_status : Z; response_detail : Details }.

(** [validation_exception_handler]. *)
Definition validation_exception_handler (errors : list ErrorEntry)
    : option DetailResponse :=
  option_map (fun details => {| response_status := 422;
                                response_detail := details |})
             (collect_details errors []).

(** The message of the last entry of [errors] whose location ends in
    [key]. *)
Definition last_message (key : LocPart) (errors : list ErrorEntry)
    : option (option string) :=
  option_map msg
    (List.find (fun e => match PyExtra.last_item (loc e) with
                         | Some k => loc_eqb k key
                         | None => false
                         end)
               (rev errors)).

Section Construction.

Context {EM : EngineManager}.

(** [Service._build_node_service_base], the three settings of config.py
    as arguments. *)
Definition _build_node_service_base (NODE_SERVICE_HOST NODE_SERVICE_SCHEME : option string)
    (NODE_SERVICE_PORT : Z) : option string :=
  let host := Py.strip (Py.or_empty NODE_SERVICE_HOST) in
  let scheme :=
    if Py.truthy (Py.strip (Py.or_empty NODE_SERVICE_SCHEME))
    then Py.strip (Py.or_empty NODE_SERVICE_SCHEME) else "http" in
  if negb (Py.truthy host) then None
  else
    let base := scheme +++ "://" +++ host in
    Some (if Z.eqb NODE_SERVICE_PORT 0 then base
          else base +++ ":" +++ PyExtra.str_of_int NODE_SERVICE_PORT).

(** [Service.__init__]; [c] is the [XRayCore(...)] it builds. *)
Definition __init__ (c : Core) (NODE_VERSION : string)
    (NODE_SERVICE_HOST NODE_SERVICE_SCHEME : option string)
    (NODE_SERVICE_PORT : Z) : Service :=
  {| connected := false; client_ip := None; session_id := None;
     core := c; core_version := get_version c;
     node_version := NODE_VERSION;
     node_service_base :=
       _build_node_service_base NODE_SERVICE_HOST NODE_SERVICE_SCHEME
         NODE_SERVICE_PORT |}.

End Construction.

(* ------------------------------------------------------------------ *)
(** ** config.py *)

(** The cast of [INBOUNDS]:
    [[x.strip() for x in v.split(',')] if v else []]. *)
Definition INBOUNDS_cast (v : string) : list string :=
  if Py.truthy v then map Py.strip (PyExtra.split ","%char v) else [].

(* ------------------------------------------------------------------ *)
(** ** node_service.py: the local maintenance agent *)

Module Agent.

(** [subprocess.CompletedProcess], its output decoded. *)
Record Completed := { returncode : Z; stdout : string; stderr : string }.

(** The machine the agent runs on: the environment, [shutil.which],
    [Path.exists] and [subprocess.run] with both pipes captured. *)
Record Host := {
  getenv : string -> option string;
  which : string -> option string;
  path_exists : string -> bool;
  run : list string -> Completed
}.

(** [os.getenv(name, default)]. *)
Definition getenv_or (H : Host) (name default : string) : string :=
  match getenv H name with Some v => v | None => default end.

Record Settings := {
  host : string;
  port : Z;
  allowed_hosts : list string;   (* a set: only membership is asked *)
  node_cli : string
}.

(** What building the settings comes to. *)
Inductive Built : Type :=
| Ready (settings : Settings)
| ValueError
| RuntimeError (message : string).

(** [Settings._resolve_existing]. *)
Fixpoint _resolve_existing (H : Host) (candidates : list string) : string + string :=
  match candidates with
  | [] => inr "Unable to locate rebecca-node CLI. Set REBECCA_NODE_SCRIPT_BIN."
  | candidate :: rest =>
      if path_exists H candidate then inl candidate
      else _resolve_existing H rest
  end.

(** The candidates [Settings.__init__] hands to [_resolve_existing]. *)
Definition cli_candidates (H : Host) : list string :=
  if Py.truthy (Py.or_empty (getenv H "REBECCA_NODE_SCRIPT_BIN")) then
    [Py.or_empty (getenv H "REBECCA_NODE_SCRIPT_BIN")]
  else
    (if Py.truthy (Py.or_empty (which H "rebecca-node"))
     then [Py.or_empty (which H "rebecca-node")] else [])
    ++ ["/usr/local/bin/rebecca-node"].

(** [{value.strip() for value in allowed.split(",") if value.strip()}]. *)
Definition parse_allowed (allowed : string) : list string :=
  filter Py.truthy (map Py.strip (PyExtra.split ","%char allowed)).

(** [Settings.__init__]. *)
Definition __init__ (H : Host) : Built :=
  match PyExtra.int (getenv_or H "REBECCA_NODE_SCRIPT_PORT" "3100") with
  | None => ValueError
  | Some port_number =>
      match _resolve_existing H (cli_candidates H) with
      | inr message => RuntimeError message
      | inl cli =>
          Ready {| host := getenv_or H "REBECCA_NODE_SCRIPT_HOST" "127.0.0.1";
                   port := port_number;
                   allowed_hosts :=
                     parse_allowed
                       (getenv_or H "REBECCA_NODE_SCRIPT_ALLOWED_HOSTS"
                          "127.0.0.1,::1,localhost");
                   node_cli := cli |}
      end
  end.

(** [run_subprocess]; on the right, the arguments of the [RuntimeError]. *)
Definition run_subprocess (H : Host) (cmd : list string)
    : Completed + (string * string * string) :=
  let completed := run H cmd in
  if negb (Z.eqb (returncode completed) 0) then
    inr ("Command " +++ String.concat " " cmd +++ " failed with exit code "
           +++ PyExtra.str_of_int (returncode completed),
         stdout completed, stderr completed)
  else inl completed.

(** [run_cli]: the answer, and the commands run for it. *)
Definition run_cli (H : Host) (S : Settings) (args : list string)
    : Result Value * list (list string) :=
  let cmd := node_cli S :: args in
  (match run_subprocess H cmd with
   | inl result =>
       Ok (VDict [("status", VStr "ok");
                  ("stdout", VStr (Py.strip (stdout result)))])
   | inr (message, out, err) =>
       Raise {| status_code := 500;
                detail := VDict [("message", VStr message);
                                 ("stdout", VStr out);
                                 ("stderr", VStr err)] |}
   end, [cmd]).

(** What goes back over the wire. *)
Record Reply := { reply_status : Z; reply_body : Value }.

(** A returned value is answered with 200 and an [HTTPException] with
    its status and [{"detail": ...}], as FastAPI does. *)
Definition render (r : Result Value) : Reply :=
  match r with
  | Ok v => {| reply_status := 200; reply_body := v |}
  | Raise e => {| reply_status := status_code e;
                  reply_body := VDict [("detail", detail e)] |}
  end.

(** [local_only]; [client] is [request.client.host], [None] when the
    request has no client. *)
Definition local_only (S : Settings) (client : option string)
    (call_next : unit -> Reply * list (list string))
    : Reply * list (list string) :=
  if negb (match client with
           | Some h => Py.in_tuple h (allowed_hosts S)
           | None => false
           end)
  then ({| reply_status := 403;
           reply_body := VDict [("detail",
                                 VStr "Only local requests are allowed")] |},
        [])
  else call_next tt.

Inductive Route : Type := GetHealth | PostUpdate | PostRestart.

(** [health]. *)
Definition health (S : Settings) : Value :=
  VDict [("status", VStr "ok"); ("cli", VStr (node_cli S))].

(** [update_node]. *)
Definition update_node (H : Host) (S : Settings) :=
  run_cli H S ["update"].

(** [restart_node]. *)
Definition restart_node (H : Host) (S : Settings) :=
  run_cli H S ["restart"; "-n"].

(** [app]: the middleware around the three routes. *)
Definition app (H : Host) (S : Settings) (client : option string)
    (route : Route) : Reply * list (list string) :=
  local_only S client
    (fun _ =>
       match route with
       | GetHealth => (render (Ok (health S)), [])
       | PostUpdate =>
           (render (fst (update_node H S)), snd (update_node H S))
       | PostRestart =>
           (render (fst (restart_node H S)), snd (restart_node H S))
       end).

(** What [requests] makes of a reply whose body, as sent, is [text]. *)
Definition received (r : Reply) (text : string) : Response :=
  {| res_status_code := reply_status r;
     res_text := text;
     res_json := Some (reply_body r) |}.

End Agent.

(* ------------------------------------------------------------------ *)
(** ** main.py *)

Module Main.







Inductive Outcome : Type :=
| SystemExit (code : Z)
| Run (host : string) (port : Z)
      (ssl_keyfile ssl_certfile ssl_ca_certs : string) (ssl_cert_reqs : Z).


End Main.

(* ------------------------------------------------------------------ *)
(** ** More concrete runs *)

Module Runs.

Import Reference Scenario.

(** Rounds of a stream whose session is replaced before the second. *)
Definition replaced : nat -> Turn :=
  fun k =>
    {| arrivals := []; superseded := Nat.eqb k 1;
       send_fails := false; send_takes := 0%N;
       inbound := TimedOut; wait_takes := 0%N |}.

(** Two entries that are in order. *)
Definition two_files : list FileItem :=
  [{| item_name := Some "geoip.dat";
      item_url := Some "https://example.org/geoip.dat" |};
   {| item_name := Some " geosite.dat ";
      item_url := Some "https://example.org/geosite.dat" |}].

(** A network on which only [reachable] can be fetched, on a Linux host
    whose release archive holds [members], with or without a deployment
    descriptor. *)
Definition host_env (reachable : string -> bool) (members : list string)
    (descriptor : bool) : Env :=
  {| ticks := fun _ => calm;
     boot_lines := [];
     http_post := fun _ => RequestException "connection refused";
     http_get := fun url =>
       if reachable url then inl "content"
       else inr "404 Client Error: Not Found";
     write_error := fun _ => None;
     platform_system := "Linux";
     platform_machine := "x86_64";
     archive_members := fun _ => members;
     rename_fails := false;
     compose_exists := descriptor;
     compose_exception := "name 'subprocess' is not defined";
     compose_written := true |}.



(** A machine for the agent: the CLI is where the environment says, the
    fallback exists too, and the CLI fails at restarts. *)
Definition agent_host (configured_exists : bool) : Agent.Host :=
  {| Agent.getenv := fun name =>
       if String.eqb name "REBECCA_NODE_SCRIPT_BIN"
       then Some "/opt/rebecca/bin/rebecca-node"
       else if String.eqb name "REBECCA_NODE_SCRIPT_ALLOWED_HOSTS"
            then Some "127.0.0.1, ::1,,localhost"
            else None;
     Agent.which := fun _ => Some "/usr/bin/rebecca-node";
     Agent.path_exists := fun p =>
       if String.eqb p "/opt/rebecca/bin/rebecca-node" then configured_exists
       else true;
     Agent.run := fun cmd =>
       {| Agent.returncode := 3; Agent.stdout := "restarting ";
          Agent.stderr := "unit not found" |} |}.

Definition agent_settings : Agent.Settings :=
  {| Agent.host := "127.0.0.1"; Agent.port := 3100;
     Agent.allowed_hosts := Agent.parse_allowed "127.0.0.1, ::1,,localhost";
     Agent.node_cli := "/opt/rebecca/bin/rebecca-node" |}.

(** The service talking to that agent from [client]. *)
Definition through_agent (client : option string) : Env :=
  {| ticks := fun _ => calm;
     boot_lines := [];
     http_post := fun _ =>
       Replied (Agent.received
                  (fst (Agent.app (agent_host true) agent_settings client
                          Agent.PostRestart)) "");
     http_get := fun _ => inl "content";
     write_error := fun _ => None;
     platform_system := "Linux";
     platform_machine := "x86_64";
     archive_members := fun _ => ["xray"];
     rename_fails := false;
     compose_exists := false;
     compose_exception := "name 'subprocess' is not defined";
     compose_written := true |}.



End Runs.

(* ------------------------------------------------------------------ *)
(** * Properties *)

Section SessionManager.

Context {EM : EngineManager}.

Lemma match_current (sid : UUID) (w : World) :
  session_id (self w) = Some sid ->
  match_session_id sid w = (Ok true, w).
Proof.
  intros Hs. unfold match_session_id, bind, get_self. cbn.
  rewrite Hs, Z.eqb_refl. reflexivity.
Qed.

Lemma match_other (sid : UUID) (w : World) :
  session_id (self w) <> Some sid ->
  match_session_id sid w = (Raise SessionMismatch, w).
Proof.
  intros Hs. unfold match_session_id, bind, get_self. cbn.
  destruct (session_id (self w)) as [cur|]; [|reflexivity].
  destruct (Z.eqb_spec sid cur) as [->|_]; [congruence|reflexivity].
Qed.

(** A handler that opens with [self.match_session_id(session_id)] goes
    no further when the token is not the current one. *)
Lemma guarded_stale {A} (sid : UUID) (k : M A) (w : World) :
  session_id (self w) <> Some sid ->
  bind (match_session_id sid) (fun _ => k) w = (Raise SessionMismatch, w).
Proof. intros Hs. unfold bind. rewrite (match_other _ _ Hs). reflexivity. Qed.

Lemma guarded_current {A} (sid : UUID) (k : M A) (w : World) :
  session_id (self w) = Some sid ->
  bind (match_session_id sid) (fun _ => k) w = k w.
Proof. intros Hs. unfold bind. rewrite (match_current _ _ Hs). reflexivity. Qed.

Lemma connect_session (fresh : UUID) (host : string) (w : World) :
  session_id (self (snd (connect fresh host w))) = Some fresh.
Proof.
  unfold connect, bind, modify_self, get_self, stop_quietly, ret. cbn.
  destruct (connected (self w)); cbn; [destruct (started (core (self w)))|];
    reflexivity.
Qed.

Lemma with_core_same (s : Service) : with_core (core s) s = s.
Proof. destruct s; reflexivity. Qed.

(** C1. After connect A then connect B (tokens [a] and [b] being two
    distinct draws of [uuid4]), each of ping, start, stop, restart,
    maintenance restart and maintenance update fails with the 403
    SessionMismatch under [a], changing nothing, while [b] passes
    [match_session_id]; and with no session every token fails it. *)
Theorem exclusivity (a b : UUID) (hostA hostB : string) (w : World) :
  a <> b ->
  let w2 := snd (connect b hostB (snd (connect a hostA w))) in
  (forall (E : Env) (config : string),
      ping a w2 = (Raise SessionMismatch, w2) /\
      start E a config w2 = (Raise SessionMismatch, w2) /\
      stop a w2 = (Raise SessionMismatch, w2) /\
      restart E a config w2 = (Raise SessionMismatch, w2) /\
      restart_node_service E a w2 = (Raise SessionMismatch, w2) /\
      update_node_service E a w2 = (Raise SessionMismatch, w2)) /\
  match_session_id b w2 = (Ok true, w2) /\
  ping b w2 = (Ok (VDict []), w2) /\
  is_ok (fst (stop b w2)) = true /\
  (forall (t : UUID) (w0 : World),
      session_id (self w0) = None ->
      match_session_id t w0 = (Raise SessionMismatch, w0)).
Proof.
  intros Hab w2.
  assert (Hb : session_id (self w2) = Some b) by apply connect_session.
  assert (Ha : session_id (self w2) <> Some a) by (rewrite Hb; congruence).
  repeat split.
  - apply guarded_stale, Ha.
  - apply guarded_stale, Ha.
  - apply guarded_stale, Ha.
  - apply guarded_stale, Ha.
  - apply guarded_stale, Ha.
  - apply guarded_stale, Ha.
  - apply match_current, Hb.
  - unfold ping. rewrite (guarded_current _ _ _ Hb). reflexivity.
  - unfold stop. rewrite (guarded_current _ _ _ Hb). reflexivity.
  - intros t w0 Hnone. apply match_other. rewrite Hnone. discriminate.
Qed.

Context {contract : EngineContract EM}.

(** C2. [connect] never fails and answers with the token just drawn,
    which is the session from then on; when a session existed and the
    engine was running, the engine is not running any more when the
    answer is built (the answer says so), whatever became of the stop. *)
Theorem connect_takes_over (fresh : UUID) (host : string) (w : World) :
  let w' := snd (connect fresh host w) in
  fst (connect fresh host w)
    = Ok (response [("session_id", VUuid fresh)] (self w')) /\
  session_id (self w') = Some fresh /\
  connected (self w') = true /\
  (connected (self w) = true -> started (core (self w)) = true ->
   started (core (self w')) = false /\
   core (self w') = snd (core_stop (core (self w))) /\
   dict_get "started"
     (match fst (connect fresh host w) with
      | Ok (VDict fields) => fields
      | _ => []
      end) = VBool false).
Proof.
  unfold connect, bind, modify_self, get_self, stop_quietly, ret. cbn.
  destruct (connected (self w)) eqn:Hc; cbn;
    [destruct (started (core (self w))) eqn:Hr; cbn|];
    (split; [reflexivity|]); (split; [reflexivity|]);
    (split; [reflexivity|]); try discriminate.
  intros _ _. rewrite stop_stops. repeat split.
Qed.

(** C8. With the session token, [stop] on a stopped engine answers with
    the usual response and changes nothing; in any state it succeeds,
    and a second [stop] gives the same answer and the same state as the
    first. *)
Theorem stop_idempotent (sid : UUID) (w : World) :
  session_id (self w) = Some sid ->
  (started (core (self w)) = false ->
   stop sid w = (Ok (response [] (self w)), w)) /\
  is_ok (fst (stop sid w)) = true /\
  stop sid (snd (stop sid w)) = stop sid w.
Proof.
  intros Hs. unfold stop. rewrite (guarded_current _ _ _ Hs).
  unfold bind, modify_self, get_self, stop_quietly, ret. cbn.
  repeat split.
  - intros Hidle. rewrite (stop_idle _ Hidle), with_core_same.
    destruct w; reflexivity.
  - unfold match_session_id, bind, get_self, ret. cbn. rewrite Hs, Z.eqb_refl.
    cbn. rewrite (stop_idle _ (stop_stops (core (self w)))). reflexivity.
Qed.

End SessionManager.

Section Readiness.

Context {EM : EngineManager}.
Variable E : Env.

Lemma last_default_cons {A} (x d : A) (l : list A) :
  List.last (x :: l) d = List.last l x.
Proof.
  revert x d. induction l as [|y l IH]; intros x d; [reflexivity|].
  change (List.last (y :: l) d = List.last (y :: l) x).
  rewrite (IH y d), (IH y x). reflexivity.
Qed.

Lemma last_nonempty_cons (d x : string) (l : list string) :
  last_nonempty d (x :: l)
  = last_nonempty (if Py.truthy x then x else d) l.
Proof.
  unfold last_nonempty. cbn [filter].
  destruct (Py.truthy x); [apply last_default_cons|reflexivity].
Qed.

Lemma last_nonempty_app (d : string) (a b : list string) :
  last_nonempty d (a ++ b) = last_nonempty (last_nonempty d a) b.
Proof.
  revert d. induction a as [|x a IH]; intros d; [reflexivity|].
  cbn [app]. rewrite !last_nonempty_cons. apply IH.
Qed.

(** Without the marker the inner loop empties the handle. *)
Lemma drain_quiet (marker : string) (logs : list string) (last_log : string) :
  (forall l, In l logs -> Py.contains marker l = false) ->
  drain marker logs last_log = ([], last_nonempty last_log logs).
Proof.
  revert last_log. induction logs as [|log rest IH]; intros last_log Hq.
  - reflexivity.
  - cbn [drain]. rewrite (Hq log (or_introl eq_refl)).
    rewrite IH by (intros l Hl; apply Hq; right; exact Hl).
    rewrite last_nonempty_cons. reflexivity.
Qed.

Lemma wake_shift (i : nat) (t0 : Z) (j : nat) :
  wake E i t0 (S j)
  = wake E (S i) (t0 + 100 + Z.of_N (overshoot (ticks E i))) j.
Proof.
  induction j as [|j IH].
  - cbn [wake]. rewrite Nat.add_0_r. reflexivity.
  - change (wake E i t0 (S (S j)))
      with (wake E i t0 (S j) + 100 + Z.of_N (overshoot (ticks E (i + S j)))).
    rewrite IH. cbn [wake]. rewrite Nat.add_succ_r. reflexivity.
Qed.

Lemma wake_grows (i : nat) (t0 : Z) (j : nat) : t0 <= wake E i t0 j.
Proof. induction j as [|j IH]; cbn [wake]; lia. Qed.

Lemma engine_after_shift (i j : nat) (c : Core) :
  engine_after E i (S j) c = engine_after E (S i) j (evolve (ticks E i) c).
Proof.
  induction j as [|j IH].
  - cbn [engine_after]. rewrite Nat.add_0_r. reflexivity.
  - change (engine_after E i (S (S j)) c)
      with (evolve (ticks E (i + S j)) (engine_after E i (S j) c)).
    rewrite IH. cbn [engine_after]. rewrite Nat.add_succ_r. reflexivity.
Qed.

Lemma flat_map_nothing {A B} (f : A -> list B) (l : list A) :
  (forall x, f x = []) -> flat_map f l = [].
Proof.
  intros Hf. induction l as [|x l IH]; [reflexivity|].
  cbn [flat_map]. rewrite Hf, IH. reflexivity.
Qed.

(** The lines seen from the next round on, in terms of the round after. *)
Lemma seen_before_step (i : nat) (t0 end_time : Z) (found : list string) (n : nat) :
  let t1 := t0 + 100 + Z.of_N (overshoot (ticks E i)) in
  seen_before E i t0 end_time found (S n)
  = found ++ (if t1 <? end_time
              then seen_before E (S i) t1 end_time (lines (ticks E i)) n
              else []).
Proof.
  intros t1. unfold seen_before. f_equal.
  cbn [seq flat_map]. rewrite <- seq_shift, flat_map_concat_map, map_map,
    <- flat_map_concat_map.
  rewrite (wake_shift i t0 0).
  change (wake E (S i) (t0 + 100 + Z.of_N (overshoot (ticks E i))) 0) with t1.
  rewrite Nat.add_0_r.
  destruct (Z.ltb_spec t1 end_time) as [Hlt|Hge].
  - f_equal. apply flat_map_ext. intros j.
    rewrite wake_shift, Nat.add_succ_r. reflexivity.
  - cbn [app]. apply flat_map_nothing. intros j.
    rewrite (wake_shift i t0 (S j)). fold t1.
    pose proof (wake_grows (S i) t1 (S j)).
    destruct (Z.ltb_spec (wake E (S i) t1 (S j)) end_time); [lia|reflexivity].
Qed.

Lemma sleep_marker (ms : Z) (t : Tick) (w : World) :
  started_marker (self (sleep ms t w)) = started_marker (self w).
Proof. reflexivity. Qed.

(** What the loop remembers: the last non-empty line among those seen
    before the deadline. *)
Lemma poll_last_log (end_time : Z) (fuel : nat) :
  forall (i : nat) (logs : list string) (last_log : string) (w : World),
    never_announces E (started_marker (self w)) logs ->
    end_time - now w <= 100 * Z.of_nat fuel ->
    snd (fst (poll E fuel i end_time logs last_log w))
    = if now w <? end_time
      then last_nonempty last_log (seen_before E i (now w) end_time logs fuel)
      else last_log.
Proof.
  induction fuel as [|fuel IH]; intros i logs last_log w [Hfound Hticks] Hfuel.
  - cbn [poll]. destruct (Z.ltb_spec (now w) end_time); [lia|reflexivity].
  - cbn [poll]. destruct (Z.ltb_spec (now w) end_time) as [Hlt|Hge];
      [|reflexivity].
    rewrite (drain_quiet _ _ _ Hfound). cbn [app].
    rewrite IH.
    + rewrite seen_before_step, last_nonempty_app. cbn [sleep now].
      destruct (Z.ltb_spec (now w + 100 + Z.of_N (overshoot (ticks E i))) end_time);
        [reflexivity|].
      reflexivity.
    + split; [apply Hticks|exact Hticks].
    + cbn [sleep now]. lia.
Qed.

Lemma with_core_twice (c1 c2 : Core) (s : Service) :
  with_core c2 (with_core c1 s) = with_core c2 s.
Proof. reflexivity. Qed.

(** Where the loop leaves the world: it has slept [R] times, the last
    of them across the deadline. *)
Lemma poll_world (end_time : Z) (fuel : nat) :
  forall (i : nat) (logs : list string) (last_log : string) (w : World),
    end_time - now w <= 100 * Z.of_nat fuel ->
    exists R : nat,
      (R <= fuel)%nat /\
      snd (poll E fuel i end_time logs last_log w)
      = {| self := with_core (engine_after E i R (core (self w))) (self w);
           now := wake E i (now w) R;
           trace := trace w |} /\
      end_time <= wake E i (now w) R /\
      (forall j, (j < R)%nat -> wake E i (now w) j < end_time).
Proof.
  induction fuel as [|fuel IH]; intros i logs last_log w Hfuel.
  - exists 0%nat. cbn [poll snd wake engine_after].
    rewrite with_core_same. repeat split; [lia|destruct w; reflexivity|lia|lia].
  - cbn [poll]. destruct (Z.ltb_spec (now w) end_time) as [Hlt|Hge].
    + destruct (drain (started_marker (self w)) logs last_log) as [logs1 last1].
      destruct (IH (S i) (logs1 ++ lines (ticks E i)) last1
                   (sleep 100 (ticks E i) w)) as (R & HR & Hw & Hend & Hbefore).
      { cbn [sleep now]. lia. }
      exists (S R). rewrite Hw, wake_shift, engine_after_shift.
      cbn [sleep now self trace core with_core] in *.
      repeat split; [lia|exact Hend|].
      intros [|j] Hj; [exact Hlt|].
      rewrite wake_shift. apply Hbefore. lia.
    + exists 0%nat. cbn [snd wake engine_after].
      rewrite with_core_same. repeat split; [lia|destruct w; reflexivity|lia|lia].
Qed.

(** More rounds than the deadline needs change nothing. *)
Lemma poll_enough (end_time : Z) (fuel : nat) :
  forall (n i : nat) (logs : list string) (last_log : string) (w : World),
    end_time - now w <= 100 * Z.of_nat fuel ->
    (fuel <= n)%nat ->
    poll E n i end_time logs last_log w = poll E fuel i end_time logs last_log w.
Proof.
  induction fuel as [|fuel IH]; intros n i logs last_log w Hfuel Hn.
  - destruct n; cbn [poll]; [reflexivity|].
    destruct (Z.ltb_spec (now w) end_time); [lia|reflexivity].
  - destruct n as [|n]; [lia|]. cbn [poll].
    destruct (Z.ltb_spec (now w) end_time); [|reflexivity].
    destruct (drain (started_marker (self w)) logs last_log) as [logs1 last1].
    apply IH; [cbn [sleep now]; lia|lia].
Qed.

Lemma rounds_for_three_seconds (w : World) :
  rounds_until (now w + 3000) w = 30%nat.
Proof.
  unfold rounds_until.
  replace (now w + 3000 - now w + 99) with 3099 by lia. reflexivity.
Qed.

End Readiness.

Section ReadinessContract.

Context {EM : EngineManager}.
Variable E : Env.

(** The wait of three seconds, summed up: what it remembers and where
    it leaves the world. *)
Lemma wait_ready_outcome (i : nat) (found : list string) (w : World) (J : Z) :
  never_announces E (started_marker (self w)) found ->
  (forall k, Z.of_N (overshoot (ticks E k)) <= J) ->
  exists R : nat,
    (R < 30)%nat /\
    wait_ready E i found w
    = ((fst (fst (wait_ready E i found w)),
        last_nonempty "" (seen_before E i (now w) (now w + 3000) found 30)),
       {| self := with_core (engine_after E i (S R) (core (self w))) (self w);
          now := wake E i (now w) (S R);
          trace := trace w |}) /\
    now w + 3000 <= wake E i (now w) (S R) < now w + 3100 + J.
Proof.
  intros Hquiet Hjit. unfold wait_ready. rewrite rounds_for_three_seconds.
  assert (Hfuel : now w + 3000 - now w <= 100 * Z.of_nat 30) by lia.
  pose proof (poll_last_log E (now w + 3000) 30 i found "" w Hquiet Hfuel) as Hlast.
  destruct (poll_world E (now w + 3000) 30 i found "" w Hfuel)
    as (R & HR & Hw & Hend & Hbefore).
  destruct (Z.ltb_spec (now w) (now w + 3000)) as [_|]; [|lia].
  destruct R as [|R]; [cbn [wake] in Hend; lia|].
  exists R. split; [lia|]. split.
  - destruct (poll E 30 i (now w + 3000) found "" w) as [[rest last_log] w'].
    cbn [fst snd] in *. subst. reflexivity.
  - split; [exact Hend|].
    pose proof (Hbefore R (Nat.lt_succ_diag_r R)) as Hlt.
    pose proof (Hjit (i + R)%nat). cbn [wake]. lia.
Qed.


(** C4 (as amended). Over a log source without the started marker, the
    wait of [start] and [restart] sleeps in steps of 100 ms (plus the
    lateness of each sleep, [J] at most), at most 30 times, and ends
    with the first sleep that crosses the deadline of 3 s, no sooner:
    the engine's running flag plays no part in it, being read once the
    wait is over.  [restart] on an engine that is not running, when the
    Engine Manager's [restart] does what its [start] does, is [start]. *)
Theorem readiness_runs_to_deadline (i : nat) (found : list string)
    (w : World) (J : Z) :
  never_announces E (started_marker (self w)) found ->
  (forall k, Z.of_N (overshoot (ticks E k)) <= J) ->
  let w' := snd (wait_ready E i found w) in
  now w + 3000 <= now w' < now w + 3100 + J /\
  (exists R : nat,
      (1 <= R <= 30)%nat /\
      now w' = wake E i (now w) R /\
      core (self w') = engine_after E i R (core (self w)) /\
      (forall j, (j < R)%nat ->
                 100 <= wake E i (now w) (S j) - wake E i (now w) j <= 100 + J)) /\
  (forall n, (30 <= n)%nat ->
             poll E n i (now w + 3000) found "" w = wait_ready E i found w) /\
  (forall (sid : UUID) (config : string),
      started (core (self w)) = false ->
      (forall cfg, core_restart cfg (core (self w))
                   = core_start cfg (core (self w))) ->
      restart E sid config w = start E sid config w).
Proof.
  intros Hquiet Hjit w'.
  destruct (wait_ready_outcome i found w J Hquiet Hjit)
    as (R & HR & Hwait & Htime).
  subst w'. rewrite Hwait. cbn [snd now self core with_core].
  split; [exact Htime|]. split; [|split].
  - exists (S R). repeat split; try lia.
    + cbn [wake]. pose proof (Hjit (i + j)%nat). lia.
    + cbn [wake]. pose proof (Hjit (i + j)%nat). lia.
  - intros n Hn. rewrite <- Hwait. unfold wait_ready.
    rewrite rounds_for_three_seconds. apply poll_enough; lia.
  - intros sid config Hidle Hsame. unfold restart, start, bind.
    destruct (match_session_id sid w) as [[b|e] w1] eqn:Hm; [|reflexivity].
    assert (w1 = w) as ->.
    { unfold match_session_id, bind, get_self, ret, raise in Hm.
      destruct (session_id (self w)) as [cur|]; [|discriminate].
      destruct (Z.eqb sid cur); inversion Hm; reflexivity. }
    unfold get_self. cbn beta iota.
    destruct (make_config config (client_ip (self w))) as [cfg|exc];
      [|reflexivity].
    rewrite Hidle, Hsame. reflexivity.
Qed.

End ReadinessContract.

(* ------------------------------------------------------------------ *)
(** ** The reference Engine Manager keeps the contract *)

#[export] Instance reference_contract : EngineContract Reference.engine.
Proof.
  split.
  - intros c. cbn. unfold Reference.handle_stop.
    destruct (Reference.running c) eqn:Hr; cbn; [reflexivity|exact Hr].
  - intros c Hidle. cbn in *. unfold Reference.handle_stop.
    rewrite Hidle. reflexivity.
Qed.

Section Witnesses.

Import Reference Scenario.

Lemma exclusivity_witness :
  tokenA <> tokenB /\
  ping tokenA taken_over = (Raise SessionMismatch, taken_over) /\
  start steady tokenA "{}" taken_over = (Raise SessionMismatch, taken_over) /\
  match_session_id tokenB taken_over = (Ok true, taken_over) /\
  match_session_id tokenA boot_world = (Raise SessionMismatch, boot_world).
Proof.
  assert (Hne : tokenA <> tokenB) by discriminate.
  destruct (exclusivity tokenA tokenB "10.0.0.1" "10.0.0.2" boot_world Hne)
    as (Hstale & Hb & _ & _ & Hnone).
  destruct (Hstale steady "{}") as (Hping & Hstart & _).
  split; [exact Hne|]. split; [exact Hping|]. split; [exact Hstart|].
  split; [exact Hb|]. apply Hnone. reflexivity.
Defined.

Lemma connect_takes_over_witness :
  connected (self owned_running) = true /\
  started (core (self owned_running)) = true /\
  started (core (self (snd (connect tokenB "10.0.0.2" owned_running)))) = false /\
  session_id (self (snd (connect tokenB "10.0.0.2" owned_running))) = Some tokenB.
Proof.
  destruct (connect_takes_over (contract := reference_contract)
              tokenB "10.0.0.2" owned_running) as (_ & Hsid & _ & Hstop).
  destruct (Hstop eq_refl eq_refl) as (Hidle & _).
  split; [reflexivity|]. split; [reflexivity|].
  split; [exact Hidle|exact Hsid].
Defined.

Lemma stop_idempotent_witness :
  session_id (self owned) = Some tokenA /\
  started (core (self owned)) = false /\
  stop tokenA owned = (Ok (response [] (self owned)), owned) /\
  stop tokenA (snd (stop tokenA owned)) = stop tokenA owned.
Proof.
  destruct (stop_idempotent (contract := reference_contract)
              tokenA owned eq_refl) as (Hidle & _ & Htwice).
  split; [reflexivity|]. split; [reflexivity|].
  split; [exact (Hidle eq_refl)|exact Htwice].
Defined.



Lemma steady_is_quiet :
  never_announces steady (started_marker (self owned_running)) [].
Proof. split; [intros l []|intros k l []]. Qed.

Lemma readiness_runs_to_deadline_witness :
  now owned_running + 3000
  <= now (snd (wait_ready steady 0 [] owned_running))
  < now owned_running + 3100 + 0.
Proof.
  refine (proj1 (readiness_runs_to_deadline steady 0 [] owned_running 0
                   steady_is_quiet _)).
  intros k. cbn. lia.
Defined.

End Witnesses.

Section Refutations.

Import Reference Scenario.

Lemma steady_engine_stays (c : Handle) (j : nat) :
  engine_after steady 0 j c = c.
Proof. induction j as [|j IH]; [reflexivity|]. cbn. exact IH. Qed.


(** C4, as worded, fails on an engine that runs from the moment
    [core.start] returns: the wait still lasts the whole 3 s. *)
Lemma running_engine_is_waited_out :
  started (snd (core_start "{}" (core (self owned)))) = true /\
  (forall j, started (engine_after steady 0 j
                        (snd (core_start "{}" (core (self owned))))) = true) /\
  is_ok (fst (start steady tokenA "{}" owned)) = true /\
  now (snd (start steady tokenA "{}" owned)) = now owned + 3000.
Proof.
  split; [reflexivity|].
  split; [intros j; rewrite steady_engine_stays; reflexivity|].
  split; vm_compute; reflexivity.
Qed.

(** The started marker ends the inner loop of a round, not the wait:
    the lines behind it are read in the next round and the handler
    sleeps on until the deadline. *)
Lemma marker_ends_one_round_only :
  Py.contains (started_marker (self owned))
    "2023/11/14 22:13:20 [Warning] core: Xray 1.8.4 started" = true /\
  drain (started_marker (self owned))
    (lines (ticks announcing 0)) ""
  = (["2023/11/14 22:13:21 [Info] transport: listening"],
     "2023/11/14 22:13:20 [Warning] core: Xray 1.8.4 started") /\
  is_ok (fst (start announcing tokenA "{}" owned)) = true /\
  now (snd (start announcing tokenA "{}" owned)) = now owned + 3000.
Proof.
  split; [reflexivity|]. split; [reflexivity|].
  split; vm_compute; reflexivity.
Qed.

End Refutations.

Section LogStreamHandshake.

Context {EM : EngineManager}.

(** C5 (the code against it). With the session token, [interval=0] is
    let in, and so is a negative interval, where the close reason of the
    service itself asks for more than 0; [interval=11] is closed with
    4400 and [interval=5] is let in.  An interval of 0 then streams
    without batching. *)
Theorem handshake_interval_bounds (s : Service) (raw : string) (sid : UUID) :
  Py.uuid raw = Some sid ->
  session_id s = Some sid ->
  logs_handshake s raw (Some "0") = Accept sid (Some (inject_Z 0)) /\
  logs_handshake s raw (Some "-1") = Accept sid (Some (- inject_Z 1)%Q) /\
  logs_handshake s raw (Some "11")
  = Close 4400 "Interval must be more than 0 and at most 10 seconds" /\
  logs_handshake s raw (Some "5") = Accept sid (Some (inject_Z 5)) /\
  batching (Some (inject_Z 0)) = false.
Proof.
  intros Hraw Hs. unfold logs_handshake, session_differs.
  rewrite Hraw, Hs, Z.eqb_refl. cbn. repeat split.
Qed.

End LogStreamHandshake.

Lemma handshake_interval_bounds_witness :
  logs_handshake (self Scenario.owned) "0000000000000000000000000000000b"
    (Some "0")
  = Accept Reference.tokenA (Some (inject_Z 0)).
Proof.
  exact (proj1 (handshake_interval_bounds (self Scenario.owned)
                  "0000000000000000000000000000000b" Reference.tokenA
                  eq_refl eq_refl)).
Defined.

Section Batching.

Context {EM : EngineManager}.







Variable q : Q.
Hypothesis Hbatch : batching (Some q) = true.










End Batching.

Section BatchingRuns.

Import Reference Scenario.



End BatchingRuns.

Section UpdatePipeline.

Context {EM : EngineManager}.
Variable E : Env.

Lemma add_trace_nil (w : World) : add_trace [] w = w.
Proof. unfold add_trace. rewrite app_nil_r. destruct w; reflexivity. Qed.

Lemma add_trace_twice (a b : list Effect) (w : World) :
  add_trace b (add_trace a w) = add_trace (a ++ b) w.
Proof. unfold add_trace. cbn. rewrite app_assoc. reflexivity. Qed.


Lemma downloads_app (a b : list Effect) :
  downloads (a ++ b) = (downloads a + downloads b)%nat.
Proof. unfold downloads. rewrite filter_app, length_app. reflexivity. Qed.

Lemma downloads_fetches (dir : string) (fs : list FileItem) :
  downloads (flat_map (fetch_effects dir) fs) = List.length fs.
Proof.
  induction fs as [|f fs IH]; [reflexivity|].
  cbn [flat_map]. rewrite downloads_app, IH. reflexivity.
Qed.


Lemma detect_asset_name_table (w : World) :
  _detect_asset_name E w
  = match artifact_for (platform_system E) (platform_machine E) with
    | Some asset => (Ok asset, w)
    | None => (Raise {| status_code := 400;
                        detail := VStr "Unsupported platform for node" |}, w)
    end.
Proof.
  unfold _detect_asset_name, artifact_for.
  destruct (Py.startswith (Py.lower (platform_system E)) "linux");
    [|reflexivity].
  unfold Py.in_tuple, artifacts. cbn [existsb lookup].
  repeat match goal with
         | |- context [String.eqb ?a ?b] => destruct (String.eqb a b)
         end; reflexivity.
Qed.

(** C10 (as amended). On a host without an artifact, [update_core] with
    a non-empty version fails with 400, and with an empty version with
    422; either way nothing has been downloaded or touched by then: the
    world, and with it the engine's running flag, paths and version, is
    the one it was called in. *)
Theorem update_core_unsupported (version : string) (w : World) :
  artifact_for (platform_system E) (platform_machine E) = None ->
  (version <> "" ->
   update_core E version w
   = (Raise {| status_code := 400;
               detail := VStr "Unsupported platform for node" |}, w)) /\
  (version = "" ->
   update_core E version w
   = (Raise {| status_code := 422; detail := VStr "version is required" |}, w)).
Proof.
  intros Hnone. unfold update_core. split.
  - intros Hv. destruct version as [|c v]; [congruence|]. cbn [Py.truthy negb].
    unfold bind at 1. rewrite detect_asset_name_table, Hnone. reflexivity.
  - intros ->. reflexivity.
Qed.


End UpdatePipeline.

Section UpdateRuns.

Import Reference Scenario.



Lemma update_core_unsupported_witness :
  artifact_for (platform_system on_darwin) (platform_machine on_darwin) = None /\
  update_core on_darwin "v1.8.4" owned_running
  = (Raise {| status_code := 400;
              detail := VStr "Unsupported platform for node" |}, owned_running).
Proof.
  split; [reflexivity|].
  apply (proj1 (update_core_unsupported on_darwin "v1.8.4" owned_running eq_refl)).
  discriminate.
Defined.

(** C10, as worded, fails for the empty version: the answer is 422. *)
Lemma empty_version_is_422 :
  artifact_for (platform_system on_darwin) (platform_machine on_darwin) = None /\
  update_core on_darwin "" owned_running
  = (Raise {| status_code := 422; detail := VStr "version is required" |},
     owned_running) /\
  status_code {| status_code := 422; detail := VStr "version is required" |}
  <> 400.
Proof. split; [reflexivity|]. split; [reflexivity|discriminate]. Qed.



End UpdateRuns.

(* ------------------------------------------------------------------ *)
(** * Further properties of the service *)

Section Lifecycle.

Context {EM : EngineManager}.
Variable E : Env.

(** The wait of three seconds, whatever the log says: it ends with the
    first sleep across the deadline. *)
Lemma wait_ready_world (i : nat) (found : list string) (w : World) (J : Z) :
  (forall k, Z.of_N (overshoot (ticks E k)) <= J) ->
  exists R : nat,
    (R < 30)%nat /\
    snd (wait_ready E i found w)
    = {| self := with_core (engine_after E i (S R) (core (self w))) (self w);
         now := wake E i (now w) (S R);
         trace := trace w |} /\
    now w + 3000 <= wake E i (now w) (S R) < now w + 3100 + J.
Proof.
  intros Hjit. unfold wait_ready. rewrite rounds_for_three_seconds.
  assert (Hfuel : now w + 3000 - now w <= 100 * Z.of_nat 30) by lia.
  destruct (poll_world E (now w + 3000) 30 i found "" w Hfuel)
    as (R & HR & Hw & Hend & Hbefore).
  destruct R as [|R]; [cbn [wake] in Hend; lia|].
  exists R. split; [lia|]. split; [exact Hw|]. split; [exact Hend|].
  pose proof (Hbefore R (Nat.lt_succ_diag_r R)) as Hlt.
  pose proof (Hjit (i + R)%nat). cbn [wake]. lia.
Qed.

Lemma report_started_cases (last_log : string) (w : World) :
  report_started last_log w
  = if started (core (self w))
    then (Ok (response [] (self w)), w)
    else (Raise {| status_code := 503; detail := VStr last_log |}, w).
Proof.
  unfold report_started, bind, get_self, raise, ret. cbn beta iota.
  destruct (started (core (self w))); reflexivity.
Qed.

(** X2. With the session token and a configuration that does not
    decode, [start] and [restart] answer 422 with the decoding error
    under the key "config" and leave everything as it was: no engine
    call, no wait, and a running engine keeps running. *)
Theorem bad_config_changes_nothing (sid : UUID) (config exc : string) (w : World) :
  session_id (self w) = Some sid ->
  make_config config (client_ip (self w)) = inr exc ->
  start E sid config w
  = (Raise {| status_code := 422;
              detail := VDict [("config",
                                VStr ("Failed to decode config: " +++ exc))] |}, w)
  /\ restart E sid config w
     = (Raise {| status_code := 422;
                 detail := VDict [("config",
                                   VStr ("Failed to decode config: " +++ exc))] |}, w).
Proof.
  intros Hs Hcfg. unfold start, restart.
  rewrite !(guarded_current _ _ _ Hs). unfold bind, get_self. cbn beta iota.
  rewrite Hcfg. split; reflexivity.
Qed.

(** X3. Once the Engine Manager's [start] has returned, [start] lasts
    the whole wait (3 s to 3.1 s plus the lateness of the sleeps)
    whatever the log says, and its answer is read off the engine at the
    end of the wait alone: the usual response when the engine is running
    then, a 503 carrying a log line when it is not. *)
Theorem start_outcome_after_wait (sid : UUID) (config : string)
    (cfg : XRayConfig) (w : World) (J : Z) :
  session_id (self w) = Some sid ->
  make_config config (client_ip (self w)) = inl cfg ->
  fst (core_start cfg (core (self w))) = Returned ->
  (forall k, Z.of_N (overshoot (ticks E k)) <= J) ->
  let r := start E sid config w in
  now w + 3000 <= now (snd r) < now w + 3100 + J /\
  (exists R : nat,
      (R < 30)%nat /\
      core (self (snd r))
      = engine_after E 0 (S R) (snd (core_start cfg (core (self w))))) /\
  (started (core (self (snd r))) = true ->
   fst r = Ok (response [] (self (snd r)))) /\
  (started (core (self (snd r))) = false ->
   exists line, fst r = Raise {| status_code := 503; detail := VStr line |}).
Proof.
  intros Hs Hcfg Hret Hjit r. subst r.
  unfold start. rewrite (guarded_current _ _ _ Hs).
  unfold bind, get_self. cbn beta iota. rewrite Hcfg.
  destruct (core_start cfg (core (self w))) as [out c1].
  cbn [fst snd] in *. subst out.
  destruct (wait_ready_world 0 (get_logs (core (self w)) ++ boot_lines E)
              (set_core c1 w) J Hjit) as (R & HR & Hw & Htime).
  destruct (wait_ready E 0 (get_logs (core (self w)) ++ boot_lines E)
              (set_core c1 w)) as [[rest last_log] w2].
  cbn [snd] in Hw. subst w2. rewrite report_started_cases.
  cbn [set_core self now core with_core] in *.
  destruct (started (engine_after E 0 (S R) c1)) eqn:Hrun; cbn [fst snd now self core with_core].
  - split; [exact Htime|]. split; [exists R; split; [exact HR|reflexivity]|].
    rewrite Hrun. split; [reflexivity|discriminate].
  - split; [exact Htime|]. split; [exists R; split; [exact HR|reflexivity]|].
    rewrite Hrun. split; [discriminate|]. intros _. exists last_log. reflexivity.
Qed.

(** X4. [restart] on a running engine stops it first and, when that stop
    returns, sleeps half a second before it asks for the restart, so the
    call lasts 3.5 s at least; when the stop raises, there is no such
    delay and the call lasts 3 s. *)
Theorem restart_grace_delay (sid : UUID) (config : string)
    (cfg : XRayConfig) (w : World) (J : Z) :
  session_id (self w) = Some sid ->
  make_config config (client_ip (self w)) = inl cfg ->
  started (core (self w)) = true ->
  (forall k, Z.of_N (overshoot (ticks E k)) <= J) ->
  let stopped := snd (core_stop (core (self w))) in
  let w' := snd (restart E sid config w) in
  (fst (core_stop (core (self w))) = Returned ->
   fst (core_restart cfg (evolve (ticks E 0) stopped)) = Returned ->
   now w + 3500 <= now w' < now w + 3600 + 2 * J) /\
  (forall msg,
      fst (core_stop (core (self w))) = Raised msg ->
      fst (core_restart cfg stopped) = Returned ->
      now w + 3000 <= now w' < now w + 3100 + J).
Proof.
  intros Hs Hcfg Hrun Hjit stopped w'. subst stopped w'.
  unfold restart. rewrite (guarded_current _ _ _ Hs).
  unfold bind, get_self. cbn beta iota. rewrite Hcfg, Hrun.
  destruct (core_stop (core (self w))) as [out c1]. cbn [fst snd].
  split.
  - intros -> Hret. cbn [sleep set_core self core with_core].
    destruct (core_restart cfg (evolve (ticks E 0) c1)) as [out2 c2].
    cbn [fst] in Hret. subst out2.
    match goal with |- context [wait_ready E 1 ?l ?w1] =>
      destruct (wait_ready_world 1 l w1 J Hjit) as (R & HR & Hw & Htime);
      destruct (wait_ready E 1 l w1) as [[rest last_log] w2] end.
    cbn [snd] in Hw. subst w2. rewrite report_started_cases.
    cbn [set_core self now core with_core sleep] in *.
    pose proof (Hjit 0%nat).
    pose proof (N2Z.is_nonneg (overshoot (ticks E 0))).
    match goal with |- context [if ?b then _ else _] => destruct b end;
      cbn [snd now]; lia.
  - intros msg -> Hret. cbn [set_core self core with_core].
    destruct (core_restart cfg c1) as [out2 c2].
    cbn [fst] in Hret. subst out2.
    match goal with |- context [wait_ready E 0 ?l ?w1] =>
      destruct (wait_ready_world 0 l w1 J Hjit) as (R & HR & Hw & Htime);
      destruct (wait_ready E 0 l w1) as [[rest last_log] w2] end.
    cbn [snd] in Hw. subst w2. rewrite report_started_cases.
    cbn [set_core self now core with_core] in *.
    match goal with |- context [if ?b then _ else _] => destruct b end;
      cbn [snd now]; exact Htime.
Qed.

Lemma disconnect_run (w : World) :
  disconnect w
  = let s1 := with_session false None None (self w) in
    let s2 := if started (core (self w))
              then with_core (snd (core_stop (core (self w)))) s1 else s1 in
    (Ok (response [] s2), {| self := s2; now := now w; trace := trace w |}).
Proof.
  unfold disconnect, stop_quietly, bind, modify_self, get_self, ret.
  cbn. destruct (started (core (self w))); reflexivity.
Qed.

Context {contract : EngineContract EM}.

(** X1. [disconnect] leaves no session behind: nobody is connected,
    every token is refused with the 403 from then on, and the engine is
    not running; a second [disconnect] answers as the first did and
    changes nothing more. *)
Theorem disconnect_clears_session (w : World) :
  let w' := snd (disconnect w) in
  connected (self w') = false /\
  session_id (self w') = None /\
  client_ip (self w') = None /\
  started (core (self w')) = false /\
  (forall sid, match_session_id sid w' = (Raise SessionMismatch, w')) /\
  disconnect w' = disconnect w.
Proof.
  intros w'. subst w'.
  assert (Hidle : started (core (self (snd (disconnect w)))) = false).
  { rewrite disconnect_run. cbn.
    destruct (started (core (self w))) eqn:Hrun; cbn;
      [apply stop_stops|exact Hrun]. }
  split; [rewrite disconnect_run; cbn;
          destruct (started (core (self w))); reflexivity|].
  assert (Hnone : session_id (self (snd (disconnect w))) = None).
  { rewrite disconnect_run; cbn. destruct (started (core (self w))); reflexivity. }
  split; [exact Hnone|].
  split; [rewrite disconnect_run; cbn;
          destruct (started (core (self w))); reflexivity|].
  split; [exact Hidle|].
  split.
  - intros sid. apply match_other. rewrite Hnone. discriminate.
  - rewrite (disconnect_run (snd (disconnect w))). cbn zeta. rewrite Hidle.
    rewrite disconnect_run. cbn.
    destruct (started (core (self w))); reflexivity.
Qed.

End Lifecycle.

Section LogStreaming.

Context {EM : EngineManager}.


Lemma stream_run_split (interval : option Q) (turns : nat -> Turn) (a b : nat) :
  forall (i : nat) (st : Stream),
    stream_run interval turns (a + b) i st
    = match stream_run interval turns a i st with
      | Continue s => stream_run interval turns b (i + a) s
      | Exit s => Exit s
      end.
Proof.
  induction a as [|a IH]; intros i st.
  - cbn. rewrite Nat.add_0_r. reflexivity.
  - cbn [Nat.add stream_run].
    destruct (stream_step interval (turns i) st) as [s|s]; [|reflexivity].
    rewrite IH, Nat.add_succ_r. reflexivity.
Qed.

(** X6. A stream whose session is replaced ends in the very round that
    finds it so: nothing is sent in that round or after it, and no time
    is spent waiting. *)
Theorem supersession_ends_stream (interval : option Q) (turns : nat -> Turn)
    (k n : nat) (st0 stk : Stream) :
  stream_run interval turns k 0 st0 = Continue stk ->
  superseded (turns k) = true ->
  (k < n)%nat ->
  exists st : Stream,
    stream_run interval turns n 0 st0 = Exit st /\
    sent st = sent stk /\ cache st = cache stk /\ clock st = clock stk /\
    pending st = pending stk ++ arrivals (turns k).
Proof.
  intros Hk Hsup Hlt.
  replace n with (k + S (n - S k))%nat by lia.
  rewrite stream_run_split, Hk. cbn [stream_run Nat.add].
  unfold stream_step. rewrite Hsup.
  eexists. split; [reflexivity|]. repeat split.
Qed.

(** One round without batching: the line taken off the handle goes out
    as a message of its own, or is lost to a send that fails, which ends
    the stream. *)
Lemma step_unbatched (interval : option Q) (t : Turn) (st : Stream) :
  batching interval = false ->
  exists lost : list string,
    (List.length lost <= 1)%nat /\
    map snd (sent (stream_of (stream_step interval t st))) ++ lost
      ++ pending (stream_of (stream_step interval t st))
    = map snd (sent st) ++ pending st ++ arrivals t /\
    (lost <> [] -> exists s, stream_step interval t st = Exit s) /\
    cache (stream_of (stream_step interval t st)) = cache st.
Proof.
  intros Hoff. unfold stream_step, flush_due. rewrite Hoff. cbn [andb].
  destruct (superseded t).
  { exists []. cbn. split; [lia|]. split; [reflexivity|].
    split; [intros H; contradiction H; reflexivity|reflexivity]. }
  cbn [pending].
  destruct (pending st ++ arrivals t) as [|log rest] eqn:Hp.
  - exists []. destruct (inbound t); cbn; rewrite app_nil_r;
      (split; [lia|]); (split; [reflexivity|]);
      (split; [intros H; contradiction H; reflexivity|reflexivity]).
  - destruct (send_fails t).
    + exists [log]. cbn. split; [lia|]. split; [reflexivity|].
      split; [intros _; eexists; reflexivity|reflexivity].
    + exists []. cbn. rewrite map_app, <- app_assoc. cbn.
      split; [lia|]. split; [reflexivity|].
      split; [intros H; contradiction H; reflexivity|reflexivity].
Qed.

(** X7. Without batching (no interval, or an interval of 0) every line
    taken off the handle goes out as one message, in the order of the
    handle; the only line that can go missing is the one whose send
    fails, and that ends the stream.  Nothing is ever put in the batch. *)
Theorem unbatched_delivery (interval : option Q) (turns : nat -> Turn) (n : nat) :
  batching interval = false ->
  forall (i : nat) (st0 : Stream),
    exists (m : nat) (lost : list string),
      (m <= n)%nat /\ (List.length lost <= 1)%nat /\
      map snd (sent (stream_of (stream_run interval turns n i st0))) ++ lost
        ++ pending (stream_of (stream_run interval turns n i st0))
      = map snd (sent st0) ++ pending st0 ++ arrived turns i m /\
      (lost <> [] ->
       exists s, stream_run interval turns n i st0 = Exit s) /\
      cache (stream_of (stream_run interval turns n i st0)) = cache st0.
Proof.
  intros Hoff. induction n as [|n IH]; intros i st0.
  - exists 0%nat, []. cbn. rewrite app_nil_r.
    split; [lia|]. split; [lia|]. split; [reflexivity|].
    split; [intros H; contradiction H; reflexivity|reflexivity].
  - cbn [stream_run].
    destruct (step_unbatched interval (turns i) st0 Hoff)
      as (lost1 & Hlen1 & Hd1 & Hexit1 & Hc1).
    destruct (stream_step interval (turns i) st0) as [st'|st'] eqn:Hstep;
      cbn [stream_of] in *.
    + destruct lost1 as [|l1 ls1].
      2:{ destruct Hexit1 as [s Hs]; [discriminate|discriminate Hs]. }
      destruct (IH (S i) st') as (m & lost & Hm & Hlen & Hd & Hexit & Hc).
      exists (S m), lost. split; [lia|]. split; [exact Hlen|]. split.
      * rewrite Hd, app_assoc. cbn [app] in Hd1. rewrite Hd1.
        unfold arrived. cbn [seq flat_map]. rewrite <- !app_assoc. reflexivity.
      * split; [exact Hexit|]. rewrite Hc. exact Hc1.
    + exists 1%nat, lost1. split; [lia|]. split; [exact Hlen1|]. split.
      * rewrite Hd1. unfold arrived. cbn [seq flat_map].
        rewrite app_nil_r. reflexivity.
      * split; [|exact Hc1]. intros _. eexists. reflexivity.
Qed.

End LogStreaming.

Section UpdateFurther.

Context {EM : EngineManager}.
Variable E : Env.





(** Entries that are in order and can be fetched are all fetched, in
    the order of the list. *)
Lemma download_all (dir : string) (files : list FileItem) :
  forall (saved : list Value) (w : World),
    Forall (fun f => well_formed f = true /\ fetched E dir f) files ->
    _download_files_to E dir files saved w
    = (Ok (saved ++ map (saved_entry dir) files),
       add_trace (flat_map (fetch_effects dir) files) w).
Proof.
  induction files as [|f files IH]; intros saved w Hall.
  - cbn. rewrite app_nil_r, add_trace_nil. reflexivity.
  - inversion Hall as [|f' files' [Hwf [[content Hget] Hwrite]] Hrest]; subst.
    unfold well_formed, entry_name, entry_url in Hwf.
    apply andb_true_iff in Hwf. destruct Hwf as [Hname Hurl].
    unfold entry_name, entry_url in Hget, Hwrite.
    cbn [_download_files_to]. rewrite Hname, Hurl. cbn [negb orb].
    unfold bind at 1. unfold perform at 1. cbn beta iota.
    rewrite Hget, Hwrite.
    unfold bind at 1. unfold perform at 1. cbn beta iota.
    rewrite (IH _ _ Hrest). f_equal.
    + rewrite <- app_assoc. reflexivity.
    + unfold add_trace. cbn. rewrite <- !app_assoc. reflexivity.
Qed.



Lemma bind_not_ok_r {A B} (m : M A) (k : A -> M B) (w : World) :
  (forall a w', is_ok (fst (k a w')) = false) ->
  is_ok (fst (bind m k w)) = false.
Proof.
  intros Hk. unfold bind. destruct (m w) as [[a|e] w']; [apply Hk|reflexivity].
Qed.

Lemma bind_not_ok_l {A B} (m : M A) (k : A -> M B) (w : World) :
  is_ok (fst (m w)) = false ->
  is_ok (fst (bind m k w)) = false.
Proof.
  intros Hm. unfold bind. destruct (m w) as [[a|e] w'];
    [discriminate Hm|reflexivity].
Qed.

Lemma compose_update_fails (file key value : string) (w : World) :
  is_ok (fst (_update_docker_compose E file key value w)) = false.
Proof.
  unfold _update_docker_compose. apply bind_not_ok_r. reflexivity.
Qed.

(** X11. Where the deployment descriptor exists, neither [update_geo]
    nor [update_core] ever succeeds: they end in the 500 of
    [_update_docker_compose] at the best.  When [update_geo] gets that
    far, the files are downloaded and the assets path is set all the
    same. *)
Theorem descriptor_blocks_success (w : World) :
  compose_exists E = true ->
  (forall files, is_ok (fst (update_geo E files w)) = false) /\
  (forall version, is_ok (fst (update_core E version w)) = false) /\
  (forall files,
      files <> [] ->
      Forall (fun f => well_formed f = true
                       /\ fetched E "/var/lib/reb/assets" f) files ->
      fst (update_geo E files w)
      = Raise {| status_code := 500;
                 detail := VStr ("Failed to update docker-compose.yml: "
                                 +++ compose_exception E) |} /\
      core (self (snd (update_geo E files w)))
      = set_assets_path "/usr/local/share/xray" (core (self w)) /\
      downloads (trace (snd (update_geo E files w)))
      = (downloads (trace w) + List.length files)%nat).
Proof.
  intros Hcompose. split; [|split].
  - intros files. unfold update_geo. destruct files as [|f fs]; [reflexivity|].
    rewrite Hcompose.
    apply bind_not_ok_r; intros _ w1.
    apply bind_not_ok_r; intros saved w2.
    apply bind_not_ok_r; intros _ w3.
    apply bind_not_ok_l, compose_update_fails.
  - intros version. unfold update_core.
    destruct (negb (Py.truthy version)); [reflexivity|].
    rewrite Hcompose.
    apply bind_not_ok_r; intros asset w1.
    apply bind_not_ok_r; intros _ w2.
    destruct (http_get E _) as [zip_bytes|e]; [|reflexivity].
    apply bind_not_ok_r; intros _ w3.
    apply bind_not_ok_r; intros s w4.
    apply bind_not_ok_r; intros _ w5.
    apply bind_not_ok_r; intros exe w6.
    apply bind_not_ok_r; intros _ w7.
    apply bind_not_ok_r; intros _ w8.
    apply bind_not_ok_r; intros _ w9.
    apply bind_not_ok_l, compose_update_fails.
  - intros files Hne Hall.
    assert (Hrun :
      update_geo E files w
      = (Raise {| status_code := 500;
                  detail := VStr ("Failed to update docker-compose.yml: "
                                  +++ compose_exception E) |},
         {| self := with_core (set_assets_path "/usr/local/share/xray"
                                 (core (self w))) (self w);
            now := now w;
            trace := (trace w ++ [MakeDirs "/var/lib/reb/assets"])
                       ++ flat_map (fetch_effects "/var/lib/reb/assets") files
                       ++ (if compose_written E
                           then [ComposeRewrite "/opt/reb/docker-compose.yml"
                                   "XRAY_ASSETS_PATH" "/usr/local/share/xray"]
                           else []) |})).
    { unfold update_geo. destruct files as [|f fs]; [congruence|].
      unfold bind at 1. unfold perform at 1. cbn beta iota.
      unfold bind at 1. rewrite (download_all _ _ _ _ Hall).
      rewrite Hcompose.
      unfold _update_docker_compose, bind, modify_self, perform, raise, ret,
        add_trace.
      destruct (compose_written E); cbn; rewrite <- ?app_assoc;
        rewrite ?app_nil_r; reflexivity. }
    rewrite Hrun. cbn [fst snd self core with_core trace].
    split; [reflexivity|]. split; [reflexivity|].
    rewrite !downloads_app, downloads_fetches.
    destruct (compose_written E); cbn; lia.
Qed.

End UpdateFurther.

Section CoreUpdate.

Context {EM : EngineManager}.
Variable E : Env.

Ltac run_update_core Hart Hget :=
  unfold update_core;
  match goal with
  | |- context [Py.truthy ?v] => destruct v as [|?c ?v']; [congruence|]
  end;
  cbn [Py.truthy negb];
  unfold bind at 1; rewrite detect_asset_name_table, Hart;
  unfold release_url in Hget;
  unfold bind, perform, get_self, stop_quietly, modify_self, ret, raise;
  cbn beta iota; rewrite Hget; cbn [self now trace].

(** X12. On a host with an artifact, when the download of the release
    archive fails, [update_core] answers 502 with the reason; the one
    request apart, nothing has happened: the engine has not been
    stopped and nothing is installed. *)
Theorem update_core_download_failure (version asset e : string) (w : World) :
  version <> "" ->
  artifact_for (platform_system E) (platform_machine E) = Some asset ->
  http_get E (release_url version asset) = inr e ->
  update_core E version w
  = (Raise {| status_code := 502; detail := VStr ("Download failed: " +++ e) |},
     add_trace [HttpGet (release_url version asset) 120] w).
Proof.
  intros Hv Hart Hget. run_update_core Hart Hget. reflexivity.
Qed.



End CoreUpdate.

Section ConstructionFacts.

Context {EM : EngineManager}.
Variable E : Env.


End ConstructionFacts.

Section ValidationHandler.

Lemma loc_eqb_spec (a b : LocPart) : reflect (a = b) (loc_eqb a b).
Proof.
  destruct a as [x|i], b as [y|j]; cbn.
  - destruct (String.eqb_spec x y); constructor; congruence.
  - constructor. discriminate.
  - constructor. discriminate.
  - destruct (Z.eqb_spec i j); constructor; congruence.
Qed.

Lemma reported_assign_same (key : LocPart) (value : option string) (d : Details) :
  reported key (assign key value d) = Some value.
Proof.
  induction d as [|[k v] d IH]; cbn.
  - destruct (loc_eqb_spec key key); [reflexivity|congruence].
  - destruct (loc_eqb_spec k key) as [->|Hne]; cbn.
    + destruct (loc_eqb_spec key key); [reflexivity|congruence].
    + destruct (loc_eqb_spec k key); [congruence|exact IH].
Qed.

Lemma reported_assign_other (key other : LocPart) (value : option string)
    (d : Details) :
  key <> other ->
  reported other (assign key value d) = reported other d.
Proof.
  intros Hne. induction d as [|[k v] d IH]; cbn.
  - destruct (loc_eqb_spec key other); [congruence|reflexivity].
  - destruct (loc_eqb_spec k key) as [->|Hk]; cbn.
    + destruct (loc_eqb_spec key other); [congruence|reflexivity].
    + destruct (loc_eqb_spec k other); [reflexivity|exact IH].
Qed.

Lemma keys_assign (key : LocPart) (value : option string) (d : Details) (k : LocPart) :
  In k (map fst (assign key value d)) <-> k = key \/ In k (map fst d).
Proof.
  induction d as [|[k1 v1] d IH]; cbn.
  - intuition congruence.
  - destruct (loc_eqb_spec k1 key) as [->|Hne]; cbn.
    + intuition congruence.
    + rewrite IH. intuition congruence.
Qed.

Lemma assign_keeps_keys_apart (key : LocPart) (value : option string) (d : Details) :
  NoDup (map fst d) -> NoDup (map fst (assign key value d)).
Proof.
  induction d as [|[k1 v1] d IH]; cbn; intros Hnd.
  - constructor; [intros []|constructor].
  - inversion Hnd as [|? ? Hnotin Hrest]; subst.
    destruct (loc_eqb_spec k1 key) as [->|Hne]; cbn.
    + constructor; assumption.
    + constructor; [|apply IH, Hrest].
      rewrite keys_assign. intros [Heq|Hin]; [congruence|contradiction].
Qed.

Lemma assign_length (key : LocPart) (value : option string) (d : Details) :
  (List.length (assign key value d) <= S (List.length d))%nat.
Proof.
  induction d as [|[k1 v1] d IH]; cbn; [lia|].
  destruct (loc_eqb k1 key); cbn; lia.
Qed.

Lemma last_item_some {A} (l : list A) : l <> [] -> exists x, PyExtra.last_item l = Some x.
Proof.
  induction l as [|a l IH]; [congruence|]. intros _.
  destruct l as [|b l]; [exists a; reflexivity|].
  destruct IH as [x Hx]; [discriminate|]. exists x. exact Hx.
Qed.

Lemma find_snoc {A} (P : A -> bool) (l : list A) (x : A) :
  List.find P (l ++ [x])
  = match List.find P l with
    | Some y => Some y
    | None => if P x then Some x else None
    end.
Proof.
  induction l as [|a l IH]; cbn; [reflexivity|].
  destruct (P a); [reflexivity|exact IH].
Qed.

Lemma collect_details_spec (errors : list ErrorEntry) :
  forall d : Details,
    (forall e, In e errors -> loc e <> []) ->
    exists d' : Details,
      collect_details errors d = Some d' /\
      (NoDup (map fst d) -> NoDup (map fst d')) /\
      (List.length d' <= List.length d + List.length errors)%nat /\
      (forall key,
          reported key d'
          = match last_message key errors with
            | Some m => Some m
            | None => reported key d
            end).
Proof.
  induction errors as [|e errors IH]; intros d Hloc.
  - exists d. cbn. repeat split; [auto|lia].
  - destruct (last_item_some (loc e)) as [ke Hke];
      [apply Hloc; left; reflexivity|].
    destruct (IH (assign ke (msg e) d)) as (d' & Hrun & Hnd & Hlen & Hrep);
      [intros e' He'; apply Hloc; right; exact He'|].
    exists d'. cbn [collect_details]. rewrite Hke.
    split; [exact Hrun|]. split; [|split].
    + intros Hd. apply Hnd, assign_keeps_keys_apart, Hd.
    + pose proof (assign_length ke (msg e) d). cbn [List.length]. lia.
    + intros key. rewrite Hrep. unfold last_message. cbn [rev].
      rewrite find_snoc.
      destruct (List.find _ (rev errors)) as [x|]; [reflexivity|].
      rewrite Hke. cbn.
      destruct (loc_eqb_spec ke key) as [->|Hne]; cbn.
      * apply reported_assign_same.
      * apply reported_assign_other, Hne.
Qed.

(** X16. When every error has a location, the validation handler
    answers 422 with one message per field, the field being the last
    part of the location: each field is listed once, with the message of
    the last error that names it, and fields no error names are not
    listed.  An error without location makes the handler itself fail. *)
Theorem validation_details_last_wins (errors : list ErrorEntry) :
  ((forall e, In e errors -> loc e <> []) ->
   exists details : Details,
     validation_exception_handler errors
     = Some {| response_status := 422; response_detail := details |} /\
     NoDup (map fst details) /\
     (List.length details <= List.length errors)%nat /\
     (forall key, reported key details = last_message key errors)) /\
  ((exists e, In e errors /\ loc e = []) ->
   validation_exception_handler errors = None).
Proof.
  split.
  - intros Hloc.
    destruct (collect_details_spec errors [] Hloc)
      as (d' & Hrun & Hnd & Hlen & Hrep).
    exists d'. unfold validation_exception_handler. rewrite Hrun.
    split; [reflexivity|]. split; [apply Hnd; constructor|].
    split; [exact Hlen|].
    intros key. rewrite Hrep. destruct (last_message key errors); reflexivity.
  - intros (e & Hin & Hempty). unfold validation_exception_handler.
    assert (Hnone : forall d, collect_details errors d = None).
    { induction errors as [|e1 errors IH]; intros d; [contradiction|].
      cbn [collect_details].
      destruct (PyExtra.last_item (loc e1)) as [k|] eqn:Hk; [|reflexivity].
      destruct Hin as [->|Hin]; [rewrite Hempty in Hk; discriminate|].
      apply IH, Hin. }
    rewrite Hnone. reflexivity.
Qed.

End ValidationHandler.

Section Inbounds.

Lemma split_length (sep : ascii) (s : string) :
  List.length (PyExtra.split sep s) = S (PyExtra.count sep s).
Proof.
  induction s as [|c s IH]; [reflexivity|]. cbn [PyExtra.split PyExtra.count].
  destruct (Ascii.eqb c sep); cbn [List.length Nat.add]; [rewrite IH; reflexivity|].
  destruct (PyExtra.split sep s) as [|piece more]; cbn in *; lia.
Qed.

Lemma split_pieces_clean (sep : ascii) (s : string) :
  Forall (fun piece => PyExtra.count sep piece = 0%nat) (PyExtra.split sep s).
Proof.
  induction s as [|c s IH]; cbn [PyExtra.split].
  - constructor; [reflexivity|constructor].
  - destruct (Ascii.eqb c sep) eqn:Hc.
    + constructor; [reflexivity|exact IH].
    + destruct (PyExtra.split sep s) as [|piece more].
      * constructor; [cbn; rewrite Hc; reflexivity|constructor].
      * inversion IH; subst. constructor; [cbn; rewrite Hc; assumption|assumption].
Qed.

Lemma count_lstrip (sep : ascii) (s : string) :
  (PyExtra.count sep (Py.lstrip s) <= PyExtra.count sep s)%nat.
Proof.
  induction s as [|c s IH]; cbn [Py.lstrip]; [lia|].
  destruct (Py.is_space c); [cbn [PyExtra.count]; lia|lia].
Qed.

Lemma count_rstrip (sep : ascii) (s : string) :
  (PyExtra.count sep (Py.rstrip s) <= PyExtra.count sep s)%nat.
Proof.
  induction s as [|c s IH]; cbn [Py.rstrip]; [lia|].
  destruct (Py.rstrip s) as [|c1 r].
  - destruct (Py.is_space c); cbn [PyExtra.count] in *; lia.
  - cbn [PyExtra.count] in *. lia.
Qed.

Lemma count_strip (sep : ascii) (s : string) :
  (PyExtra.count sep (Py.strip s) <= PyExtra.count sep s)%nat.
Proof.
  unfold Py.strip. pose proof (count_rstrip sep (Py.lstrip s)).
  pose proof (count_lstrip sep s). lia.
Qed.

(** X22. The cast of INBOUNDS gives no entry for the empty string and,
    for any other value, one entry per comma and one more, empty
    entries included; no entry holds a comma. *)
Theorem inbounds_one_entry_per_piece (v : string) :
  (v = "" -> INBOUNDS_cast v = []) /\
  (v <> "" ->
   List.length (INBOUNDS_cast v) = S (PyExtra.count ","%char v)) /\
  Forall (fun entry => PyExtra.count ","%char entry = 0%nat) (INBOUNDS_cast v).
Proof.
  unfold INBOUNDS_cast. split; [intros ->; reflexivity|]. split.
  - intros Hv. destruct v as [|c v]; [congruence|]. cbn [Py.truthy].
    rewrite length_map. apply split_length.
  - destruct (Py.truthy v); [|constructor].
    apply Forall_map. eapply Forall_impl; [|apply split_pieces_clean].
    intros piece Hclean. cbn beta in *.
    pose proof (count_strip ","%char piece). lia.
Qed.

End Inbounds.

Section MaintenanceAgent.

Import Agent.

Variable H : Host.

(** X17. [_resolve_existing] returns the first candidate that exists,
    and fails exactly when none of them does. *)
Theorem resolve_existing_first (candidates : list string) :
  match _resolve_existing H candidates with
  | inl chosen =>
      exists before after,
        candidates = before ++ chosen :: after /\
        path_exists H chosen = true /\
        Forall (fun c => path_exists H c = false) before
  | inr message =>
      message = "Unable to locate rebecca-node CLI. Set REBECCA_NODE_SCRIPT_BIN."
      /\ Forall (fun c => path_exists H c = false) candidates
  end.
Proof.
  induction candidates as [|c candidates IH]; cbn [_resolve_existing].
  - split; [reflexivity|constructor].
  - destruct (path_exists H c) eqn:Hc.
    + exists [], candidates. split; [reflexivity|]. split; [exact Hc|constructor].
    + destruct (_resolve_existing H candidates) as [chosen|message].
      * destruct IH as (before & after & -> & Hex & Hnone).
        exists (c :: before), after. split; [reflexivity|].
        split; [exact Hex|constructor; assumption].
      * destruct IH as [-> Hnone]. split; [reflexivity|constructor; assumption].
Qed.

(** X18. A CLI path given in REBECCA_NODE_SCRIPT_BIN is the only one
    tried: the settings take it when it exists and fail when it does
    not, whatever [which] finds and whether or not the fallback exists.
    Without it, the CLI is what [which] finds, if that exists, else the
    fallback /usr/local/bin/rebecca-node, if that exists, else the
    settings fail. *)
Theorem configured_cli_is_exclusive (port_number : Z) :
  PyExtra.int (getenv_or H "REBECCA_NODE_SCRIPT_PORT" "3100") = Some port_number ->
  (forall given,
      getenv H "REBECCA_NODE_SCRIPT_BIN" = Some given -> given <> "" ->
      (path_exists H given = true ->
       exists S, __init__ H = Ready S /\ node_cli S = given) /\
      (path_exists H given = false ->
       __init__ H
       = RuntimeError "Unable to locate rebecca-node CLI. Set REBECCA_NODE_SCRIPT_BIN.")) /\
  (Py.or_empty (getenv H "REBECCA_NODE_SCRIPT_BIN") = "" ->
   forall found,
     Py.or_empty (which H "rebecca-node") = found ->
     (found <> "" -> path_exists H found = true ->
      exists S, __init__ H = Ready S /\ node_cli S = found) /\
     ((found = "" \/ path_exists H found = false) ->
      path_exists H "/usr/local/bin/rebecca-node" = true ->
      exists S, __init__ H = Ready S /\ node_cli S = "/usr/local/bin/rebecca-node") /\
     ((found = "" \/ path_exists H found = false) ->
      path_exists H "/usr/local/bin/rebecca-node" = false ->
      __init__ H
      = RuntimeError "Unable to locate rebecca-node CLI. Set REBECCA_NODE_SCRIPT_BIN.")).
Proof.
  intros Hport. unfold __init__, cli_candidates. rewrite Hport. split.
  - intros given Hgiven Hne. rewrite Hgiven. cbn [Py.or_empty].
    destruct given as [|c g]; [congruence|]. cbn [Py.truthy _resolve_existing].
    split; intros ->; [eexists; split; reflexivity|reflexivity].
  - intros Hunset found Hfound. rewrite Hunset, Hfound. cbn [Py.truthy].
    destruct found as [|c f]; cbn [Py.truthy List.app _resolve_existing].
    + split; [intros Hne; congruence|].
      split; intros _ ->; [eexists; split; reflexivity|reflexivity].
    + split; [intros _ ->; eexists; split; reflexivity|].
      split; (intros [Hempty|Hmissing]; [discriminate Hempty|]);
        rewrite Hmissing; intros ->;
        [eexists; split; reflexivity|reflexivity].
Qed.

Lemma in_tuple_iff (x : string) (l : list string) :
  Py.in_tuple x l = true <-> In x l.
Proof.
  unfold Py.in_tuple. rewrite existsb_exists. split.
  - intros (y & Hin & Heq). apply String.eqb_eq in Heq. subst. exact Hin.
  - intros Hin. exists x. split; [exact Hin|apply String.eqb_refl].
Qed.

Lemma truthy_iff (s : string) : Py.truthy s = true <-> s <> "".
Proof. destruct s; cbn; split; congruence. Qed.

Lemma app_refuses (S : Settings) (client : option string) (route : Route) :
  (forall h, client = Some h -> ~ In h (allowed_hosts S)) ->
  app H S client route
  = ({| reply_status := 403;
        reply_body := VDict [("detail",
                              VStr "Only local requests are allowed")] |},
     []).
Proof.
  intros Hout. unfold app, local_only.
  destruct client as [h|]; [|reflexivity].
  destruct (Py.in_tuple h (allowed_hosts S)) eqn:Hin; [|reflexivity].
  exfalso. apply (Hout h eq_refl). apply in_tuple_iff, Hin.
Qed.

Lemma app_serves (S : Settings) (h : string) (route : Route) :
  In h (allowed_hosts S) ->
  app H S (Some h) route
  = match route with
    | GetHealth => (render (Ok (health S)), [])
    | PostUpdate => (render (fst (update_node H S)), [[node_cli S; "update"]])
    | PostRestart =>
        (render (fst (restart_node H S)), [[node_cli S; "restart"; "-n"]])
    end.
Proof.
  intros Hin. unfold app, local_only.
  apply in_tuple_iff in Hin. rewrite Hin. cbn [negb].
  destruct route; reflexivity.
Qed.

(** X19. The agent serves a request only when its client address is one
    of the comma-separated entries of the allowed hosts, blanks around
    an entry not counting and empty entries being ignored: any other
    client, and a request without client, gets the 403 and no command is
    run for it. *)
Theorem local_only_serves_listed_hosts (S : Settings) (raw : string) :
  allowed_hosts S = parse_allowed raw ->
  (forall h, In h (allowed_hosts S) <->
             h <> "" /\
             exists piece, In piece (PyExtra.split ","%char raw)
                           /\ Py.strip piece = h) /\
  (forall client route,
      (forall h, client = Some h -> ~ In h (allowed_hosts S)) ->
      app H S client route
      = ({| reply_status := 403;
            reply_body := VDict [("detail",
                                  VStr "Only local requests are allowed")] |},
         [])) /\
  (forall h route,
      In h (allowed_hosts S) ->
      app H S (Some h) route
      = match route with
        | GetHealth => (render (Ok (health S)), [])
        | PostUpdate => (render (fst (update_node H S)), [[node_cli S; "update"]])
        | PostRestart =>
            (render (fst (restart_node H S)), [[node_cli S; "restart"; "-n"]])
        end).
Proof.
  intros Hallowed. split; [|split].
  - intros h. rewrite Hallowed. unfold parse_allowed.
    rewrite filter_In, in_map_iff, truthy_iff. split.
    + intros [(piece & Hstrip & Hin) Hne]. split; [exact Hne|].
      exists piece. split; assumption.
    + intros [Hne (piece & Hin & Hstrip)]. split; [|exact Hne].
      exists piece. split; assumption.
  - intros client route Hout. apply app_refuses, Hout.
  - intros h route Hin. apply app_serves, Hin.
Qed.

Context {EM : EngineManager}.
Variable E : Env.

(** X20. The maintenance restart of the service, answered by the agent:
    a client the agent does not allow gets the agent's 403 passed on,
    with the agent's reason and not that of a session mismatch; when the
    CLI exits with 0 the call returns the agent's report, the trimmed
    output of the CLI in it; when the CLI exits with another code the
    call fails with 500 and the agent's detail (message, output and
    error output of the CLI) is passed on whole. *)
Theorem maintenance_through_agent (S : Settings) (client : option string)
    (text address : string) (sid : UUID) (w : World) :
  session_id (self w) = Some sid ->
  node_service_base (self w) = Some address ->
  address <> "" ->
  http_post E (address +++ "/restart")
  = Replied (received (fst (app H S client PostRestart)) text) ->
  let done := run H [node_cli S; "restart"; "-n"] in
  ((forall h, client = Some h -> ~ In h (allowed_hosts S)) ->
   fst (restart_node_service E sid w)
   = Raise {| status_code := 403;
              detail := VStr "Only local requests are allowed" |}) /\
  (forall h, client = Some h -> In h (allowed_hosts S) ->
     (returncode done = 0 ->
      fst (restart_node_service E sid w)
      = Ok (VDict [("status", VStr "ok");
                   ("stdout", VStr (Py.strip (stdout done)))])) /\
     (returncode done <> 0 ->
      fst (restart_node_service E sid w)
      = Raise {| status_code := 500;
                 detail :=
                   VDict [("message",
                           VStr ("Command "
                                 +++ String.concat " " [node_cli S; "restart"; "-n"]
                                 +++ " failed with exit code "
                                 +++ PyExtra.str_of_int (returncode done)));
                          ("stdout", VStr (stdout done));
                          ("stderr", VStr (stderr done))] |})).
Proof.
  intros Hs Hbase Haddr Hpost done.
  assert (Hcall : forall r,
    http_post E (address +++ "/restart") = Replied (received r text) ->
    fst (restart_node_service E sid w)
    = if 400 <=? reply_status r
      then Raise {| status_code := reply_status r;
                    detail := match reply_body r with
                              | VDict fields => dict_get "detail" fields
                              | _ => reply_body r
                              end |}
      else Ok (reply_body r)).
  { intros r Hr. unfold restart_node_service.
    rewrite (guarded_current _ _ _ Hs).
    unfold _call_node_service, bind, get_self, perform, raise, ret.
    cbn beta iota. rewrite Hbase. cbn [Py.or_empty].
    destruct address as [|c a]; [congruence|]. cbn [Py.truthy negb].
    rewrite Hr. cbn [received res_json res_status_code].
    destruct (400 <=? reply_status r); cbn [fst]; reflexivity. }
  split.
  - intros Hout. rewrite (Hcall _ Hpost).
    rewrite (app_refuses S client PostRestart Hout). reflexivity.
  - intros h -> Hin. rewrite (Hcall _ Hpost).
    rewrite (app_serves S h PostRestart Hin).
    unfold restart_node, run_cli, run_subprocess. fold done.
    cbn [fst]. split.
    + intros ->. reflexivity.
    + intros Hcode. apply Z.eqb_neq in Hcode. rewrite Hcode. reflexivity.
Qed.

End MaintenanceAgent.

Section Startup.

Import Main.




End Startup.

Section FurtherWitnesses.

Import Reference Scenario Runs.

Lemma disconnect_clears_session_witness :
  session_id (self (snd (disconnect owned_running))) = None /\
  started (core (self (snd (disconnect owned_running)))) = false /\
  disconnect (snd (disconnect owned_running)) = disconnect owned_running.
Proof.
  destruct (disconnect_clears_session (contract := reference_contract)
              owned_running) as (_ & Hsid & _ & Hidle & _ & Htwice).
  split; [exact Hsid|]. split; [exact Hidle|exact Htwice].
Defined.

Lemma bad_config_changes_nothing_witness :
  restart steady tokenA "not json" owned_running
  = (Raise {| status_code := 422;
              detail := VDict [("config",
                                VStr "Failed to decode config: Expecting value: line 1 column 1 (char 0)")] |},
     owned_running).
Proof.
  exact (proj2 (bad_config_changes_nothing steady tokenA "not json"
                  "Expecting value: line 1 column 1 (char 0)" owned_running
                  eq_refl eq_refl)).
Defined.

Lemma start_outcome_after_wait_witness :
  now owned + 3000 <= now (snd (start announcing tokenA "{}" owned))
  < now owned + 3100 + 0.
Proof.
  refine (proj1 (start_outcome_after_wait announcing tokenA "{}" "{}" owned 0
                   eq_refl eq_refl eq_refl _)).
  intros [|k]; cbn; lia.
Defined.

Lemma restart_grace_delay_witness :
  now owned_running + 3500
  <= now (snd (restart steady tokenA "{}" owned_running))
  < now owned_running + 3600 + 2 * 0.
Proof.
  refine (proj1 (restart_grace_delay steady tokenA "{}" "{}" owned_running 0
                   eq_refl eq_refl eq_refl _) eq_refl eq_refl).
  intros k. cbn. lia.
Defined.

Lemma supersession_ends_stream_witness :
  exists st : Stream,
    stream_run None replaced 3 0 (stream_open owned_backlog) = Exit st /\
    sent st = [(now owned_backlog, "line one")].
Proof.
  destruct (supersession_ends_stream None replaced 1 3
              (stream_open owned_backlog)
              {| cache := ""; last_sent_ts := 0;
                 pending := ["line two"; "line three"];
                 clock := now owned_backlog;
                 sent := [(now owned_backlog, "line one")] |}
              eq_refl eq_refl) as (st & Hrun & Hsent & _); [lia|].
  exists st. split; [exact Hrun|exact Hsent].
Defined.

Lemma unbatched_delivery_witness :
  exists (m : nat) (lost : list string),
    (m <= 4)%nat /\ (List.length lost <= 1)%nat /\
    map snd (sent (stream_of (stream_run None backlog 4 0
                                (stream_open owned_backlog)))) ++ lost
      ++ pending (stream_of (stream_run None backlog 4 0
                               (stream_open owned_backlog)))
    = map snd (sent (stream_open owned_backlog))
        ++ pending (stream_open owned_backlog) ++ arrived backlog 0 m.
Proof.
  destruct (unbatched_delivery None backlog 4 eq_refl 0
              (stream_open owned_backlog))
    as (m & lost & Hm & Hlen & Hd & _).
  exists m, lost. split; [exact Hm|]. split; [exact Hlen|exact Hd].
Defined.

Lemma two_files_fetched (reachable : string -> bool) (members : list string)
    (descriptor : bool) :
  (forall url, reachable url = true) ->
  Forall (fun f => well_formed f = true
                   /\ fetched (host_env reachable members descriptor)
                        "/var/lib/reb/assets" f) two_files.
Proof.
  intros Hall.
  repeat constructor; cbn; rewrite ?Hall; try reflexivity;
    exists "content"; reflexivity.
Qed.



Lemma descriptor_blocks_success_witness :
  is_ok (fst (update_core (host_env (fun _ => true) ["xray"] true)
                "v1.8.4" owned)) = false /\
  fst (update_geo (host_env (fun _ => true) ["xray"] true) two_files owned)
  = Raise {| status_code := 500;
             detail := VStr "Failed to update docker-compose.yml: name 'subprocess' is not defined" |}.
Proof.
  destruct (descriptor_blocks_success (host_env (fun _ => true) ["xray"] true)
              owned eq_refl) as (_ & Hcore & Hgeo).
  split; [apply Hcore|].
  apply Hgeo; [discriminate|apply two_files_fetched; reflexivity].
Defined.

Lemma update_core_download_failure_witness :
  update_core (host_env (fun _ => false) ["xray"] false) "v1.8.4" owned_running
  = (Raise {| status_code := 502;
              detail := VStr "Download failed: 404 Client Error: Not Found" |},
     add_trace [HttpGet "https://github.com/XTLS/Xray-core/releases/download/v1.8.4/Xray-linux-64.zip" 120]
       owned_running).
Proof.
  apply (update_core_download_failure
           (host_env (fun _ => false) ["xray"] false)
           "v1.8.4" "Xray-linux-64.zip" "404 Client Error: Not Found"
           owned_running); [discriminate|reflexivity|reflexivity].
Defined.




Lemma configured_cli_is_exclusive_witness :
  Agent.__init__ (agent_host false)
  = Agent.RuntimeError "Unable to locate rebecca-node CLI. Set REBECCA_NODE_SCRIPT_BIN."
  /\ Agent.path_exists (agent_host false) "/usr/local/bin/rebecca-node" = true.
Proof.
  destruct (configured_cli_is_exclusive (agent_host false) 3100 eq_refl)
    as [Hgiven _].
  destruct (Hgiven "/opt/rebecca/bin/rebecca-node" eq_refl) as [_ Hmissing];
    [discriminate|].
  split; [apply Hmissing; reflexivity|reflexivity].
Defined.

Lemma local_only_serves_listed_hosts_witness :
  In "::1" (Agent.allowed_hosts agent_settings) /\
  ~ In "" (Agent.allowed_hosts agent_settings) /\
  Agent.app (agent_host true) agent_settings (Some "10.0.0.7") Agent.PostUpdate
  = ({| Agent.reply_status := 403;
        Agent.reply_body := VDict [("detail",
                                    VStr "Only local requests are allowed")] |},
     []).
Proof.
  destruct (local_only_serves_listed_hosts (agent_host true) agent_settings
              "127.0.0.1, ::1,,localhost" eq_refl) as (Hin & Hrefuse & _).
  split; [|split].
  - apply Hin. split; [discriminate|]. exists " ::1".
    split; [right; left; reflexivity|reflexivity].
  - intros Hempty. apply Hin in Hempty. destruct Hempty as [Hne _].
    apply Hne. reflexivity.
  - apply Hrefuse. intros h Hh Hlisted. inversion Hh; subst h.
    apply Hin in Hlisted. destruct Hlisted as (_ & piece & Hpiece & Hstrip).
    cbn in Hpiece.
    destruct Hpiece as [<-|[<-|[<-|[<-|[]]]]]; discriminate Hstrip.
Defined.

Lemma maintenance_through_agent_witness :
  fst (restart_node_service (through_agent (Some "10.0.0.7")) tokenA owned)
  = Raise {| status_code := 403;
             detail := VStr "Only local requests are allowed" |}
  /\ fst (restart_node_service (through_agent (Some "127.0.0.1")) tokenA owned)
     = Raise {| status_code := 500;
                detail :=
                  VDict [("message",
                          VStr "Command /opt/rebecca/bin/rebecca-node restart -n failed with exit code 3");
                         ("stdout", VStr "restarting ");
                         ("stderr", VStr "unit not found")] |}.
Proof.
  split.
  - refine (proj1 (maintenance_through_agent (agent_host true)
                     (through_agent (Some "10.0.0.7")) agent_settings
                     (Some "10.0.0.7") "" "http://127.0.0.1:3100" tokenA owned
                     eq_refl eq_refl _ eq_refl) _); [discriminate|].
    intros h Hh Hlisted. inversion Hh; subst h. cbn in Hlisted.
    destruct Hlisted as [Heq|[Heq|[Heq|[]]]]; discriminate Heq.
  - refine (proj2 (proj2 (maintenance_through_agent (agent_host true)
                     (through_agent (Some "127.0.0.1")) agent_settings
                     (Some "127.0.0.1") "" "http://127.0.0.1:3100" tokenA owned
                     eq_refl eq_refl _ eq_refl) "127.0.0.1" eq_refl _) _);
      [discriminate|left; reflexivity|discriminate].
Defined.


End FurtherWitnesses.
